(** * tg_bot_meetups: event registry, payment webhook and registration flow

    A shallow embedding of the parts of [database.py], [payments.py],
    [states.py] and [bot.py] that carry the event roster, the payment
    status and the registration dialogue, with the properties of each
    stated and proved against the embedded code.

    Conventions.
    - Python [int] is [Z]; [Optional[t]] is [option t]; [str] is [string]
      holding the UTF-8 bytes of the text.
    - [datetime] values are [Z] microseconds on the naive UTC time line, the
      resolution of [datetime] itself; [timedelta(days=1)] is [one_day].
    - A table is the list of its rows.  The [users] table is a finite map
      keyed by [telegram_id], the column the schema declares unique.
    - [event.participants] is the list the ORM relationship exposes: the
      code uses [len], [in], [append] and [remove] on it.  Its members are
      the primary keys of the participating [User] rows.
    - aiogram's FSM storage (a Python dict of records, each with a state and
      a data dict) is a [gmap]. *)

From Stdlib Require Import ZArith String Ascii List Bool Lia.
From Stdlib Require Import Sorting.Sorted Sorting.Permutation.
From stdpp Require Import base option gmap strings list sorting pretty.

Local Open Scope string_scope.
Local Open Scope Z_scope.

(** ** database.py: rows *)

Record User := mkUser {
  user_id : Z;
  telegram_id : Z;
  username : option string;
  first_name : string;
  last_name : option string;
  phone_number : option string;
  real_name : option string;
  country : option string;
  language : string;
  about : option string;
  registration_complete : bool
}.

Record Event := mkEvent {
  event_id : Z;
  title : string;
  description : string;
  location : string;
  event_date : Z;
  max_participants : option Z;
  price : option Z;
  event_type : string;
  difficulty_level : option string;
  music_genre : option string;
  max_teams : option Z;
  team_size : option Z;
  theme : option string;
  creator_id : Z;
  participants : list Z;
  is_active : bool;
  notification_sent : bool
}.

Record Payment := mkPayment {
  payment_id : Z;
  stripe_payment_id : string;
  amount : Z;
  currency : string;
  status : string;
  payment_user_id : Z;
  payment_event_id : Z
}.

Definition set_participants (ps : list Z) (e : Event) : Event :=
  mkEvent (event_id e) (title e) (description e) (location e) (event_date e)
    (max_participants e) (price e) (event_type e) (difficulty_level e)
    (music_genre e) (max_teams e) (team_size e) (theme e) (creator_id e)
    ps (is_active e) (notification_sent e).

Definition set_is_active (b : bool) (e : Event) : Event :=
  mkEvent (event_id e) (title e) (description e) (location e) (event_date e)
    (max_participants e) (price e) (event_type e) (difficulty_level e)
    (music_genre e) (max_teams e) (team_size e) (theme e) (creator_id e)
    (participants e) b (notification_sent e).


Definition set_status (s : string) (p : Payment) : Payment :=
  mkPayment (payment_id p) (stripe_payment_id p) (amount p) (currency p) s
    (payment_user_id p) (payment_event_id p).

(** ** database.py: roster operations on one event *)

(** Python [len] of the relationship list, as an [int]. *)
Definition len {A} (l : list A) : Z := Z.of_nat (length l).

(** [list.remove(x)]: drops the first occurrence of [x]. *)
Fixpoint list_remove (x : Z) (l : list Z) : list Z :=
  match l with
  | [] => []
  | y :: l' => if decide (x = y) then l' else y :: list_remove x l'
  end.

(** The guard of [join_event]:
    [event.max_participants and len(event.participants) >= event.max_participants].
    An [Optional[int]] is falsy when it is [None] and when it is [0]. *)
Definition cap_reached (event : Event) : bool :=
  match max_participants event with
  | None => false
  | Some n => negb (n =? 0) && (len (participants event) >=? n)
  end.

(** [join_event(session, event, user) -> bool]: the result ([True] is
    Admitted, [False] is Full) and the event after the call. *)
Definition join_event (event : Event) (user : Z) : bool * Event :=
  if cap_reached event then (false, event)
  else if decide (user ∈ participants event)
       then (true, event)
       else (true, set_participants (participants event ++ [user]) event).

(** [leave_event(session, event, user)]. *)
Definition leave_event (event : Event) (user : Z) : Event :=
  if decide (user ∈ participants event)
  then set_participants (list_remove user (participants event)) event
  else event.

(** [cancel_event(session, event)]. *)
Definition cancel_event (event : Event) : Event := set_is_active false event.


(** A roster operation requested by some user, and a run of them. *)
Inductive roster_op := Join (user : Z) | Leave (user : Z).

Definition apply_op (event : Event) (op : roster_op) : Event :=
  match op with
  | Join u => snd (join_event event u)
  | Leave u => leave_event event u
  end.

Definition run_ops (ops : list roster_op) (event : Event) : Event :=
  fold_left apply_op ops event.

(** ** The store, the session monad *)

Record DB := mkDB {
  users : gmap Z User;
  events : list Event;
  payments : list Payment
}.

(** ** states.py *)

Inductive State :=
| RegistrationStates_waiting_for_language
| RegistrationStates_waiting_for_name
| RegistrationStates_waiting_for_phone
| RegistrationStates_waiting_for_country
| RegistrationStates_waiting_for_about
| BroadcastStates_waiting_for_message
| BroadcastStates_waiting_for_confirmation
| EventStates_waiting_for_type
| EventStates_waiting_for_theme
| EventStates_waiting_for_title
| EventStates_waiting_for_description
| EventStates_waiting_for_location
| EventStates_waiting_for_date
| EventStates_waiting_for_max_participants
| EventStates_waiting_for_music_genre
| EventStates_waiting_for_max_teams
| EventStates_waiting_for_team_size
| EventStates_waiting_for_difficulty.

#[global] Instance State_eq_dec : EqDecision State.
Proof. solve_decision. Defined.

(** One record of aiogram's [MemoryStorage]: the state and the data dict. *)
Record FSMRecord := mkFSM {
  fsm_state : option State;
  fsm_data : gmap string string
}.

(** Everything a handler can read or change: the database, the FSM storage
    (keyed by the user's Telegram id) and the messages sent so far, each
    with the chat it went to. *)
Record World := mkWorld {
  db : DB;
  storage : gmap Z FSMRecord;
  outbox : list (Z * string)
}.

Definition set_db (d : DB) (w : World) : World :=
  mkWorld d (storage w) (outbox w).
Definition set_storage (s : gmap Z FSMRecord) (w : World) : World :=
  mkWorld (db w) s (outbox w).
Definition set_users (us : gmap Z User) (d : DB) : DB :=
  mkDB us (events d) (payments d).
Definition set_events (es : list Event) (d : DB) : DB :=
  mkDB (users d) es (payments d).
Definition set_payments (ps : list Payment) (d : DB) : DB :=
  mkDB (users d) (events d) ps.

(** Python exceptions a modelled call can raise. *)
Inductive exn :=
| NameError (name : string)
| KeyError (key : string)
| TypeError
| AttributeError
| JSONDecodeError
| IndexError
| MultipleResultsFound
| InterfaceError.

(** A call either returns a value or raises; both leave a world behind,
    since what was committed before a [raise] stays committed. *)
Inductive outcome (A : Type) :=
| Return (a : A) (w : World)
| Raise (e : exn) (w : World).
Arguments Return {A} a w.
Arguments Raise {A} e w.

Definition M (A : Type) : Type := World → outcome A.

Definition world_of {A} (o : outcome A) : World :=
  match o with Return _ w => w | Raise _ w => w end.

#[global] Instance M_ret : MRet M := λ A a w, Return a w.
#[global] Instance M_bind : MBind M := λ A B f m w,
  match m w with
  | Return a w' => f a w'
  | Raise e w' => Raise e w'
  end.

Definition raise {A} (e : exn) : M A := λ w, Raise e w.

(** [try: body except Exception as e: handler(e)]. *)
Definition try_except {A} (body : M A) (handler : exn → M A) : M A := λ w,
  match body w with
  | Return a w' => Return a w'
  | Raise e w' => handler e w'
  end.

Definition get_world : M World := λ w, Return w w.
Definition modify (f : World → World) : M unit := λ w, Return tt (f w).
Definition modify_db (f : DB → DB) : M unit :=
  modify (λ w, set_db (f (db w)) w).

(** [await bot.send_message(chat_id, text)] and [message.answer(text)]:
    the send is recorded; the transport's own failures are outside the
    embedding. *)
Definition send_message (chat_id : Z) (text : string) : M unit :=
  modify (λ w, mkWorld (db w) (storage w) (outbox w ++ [(chat_id, text)])).

(** ** database.py: queries *)

Definition one_day : Z := 86400 * 1000000.

(** [ORDER BY event_date] and [ORDER BY event_date DESC]. *)
Definition date_asc (a b : Event) : Prop := event_date a ≤ event_date b.
Definition date_desc (a b : Event) : Prop := event_date b ≤ event_date a.

#[global] Instance date_asc_dec a b : Decision (date_asc a b).
Proof. unfold date_asc. apply _. Defined.
#[global] Instance date_desc_dec a b : Decision (date_desc a b).
Proof. unfold date_desc. apply _. Defined.

(** [get_upcoming_events(session)], with [datetime.utcnow()] as [now]. *)
Definition get_upcoming_events (now : Z) : M (list Event) :=
  w ← get_world;
  mret (merge_sort date_asc
          (filter (λ e, event_date e > now ∧ is_active e = true)
                  (events (db w)))).

(** [get_past_events(session)]. *)
Definition get_past_events (current_date : Z) : M (list Event) :=
  w ← get_world;
  mret (merge_sort date_desc
          (filter (λ e, event_date e < current_date ∧ is_active e = true)
                  (events (db w)))).

(** [get_events_for_notification(session)]: SQL [BETWEEN] takes both of
    its bounds in. *)
Definition get_events_for_notification (now : Z) : M (list Event) :=
  w ← get_world;
  let one_day_from_now := now + one_day in
  mret (filter (λ e, (now ≤ event_date e ∧ event_date e ≤ one_day_from_now)
                     ∧ notification_sent e = false
                     ∧ is_active e = true)
               (events (db w))).

(** ** database.py: payments and the roster, through the session *)

(** [update_payment_status(session, stripe_payment_id, status)].
    [scalar_one_or_none] returns [None] for no row, the row when there is
    one, and raises when there are several. *)
Definition update_payment_status (id : string) (new_status : string)
  : M (option Payment) := λ w,
  match filter (λ p, stripe_payment_id p = id) (payments (db w)) with
  | [] => Return None w
  | [p] =>
      let rows := (λ q, if decide (stripe_payment_id q = id)
                        then set_status new_status q else q)
                    <$> payments (db w) in
      Return (Some (set_status new_status p))
             (set_db (set_payments rows (db w)) w)
  | _ :: _ :: _ => Raise MultipleResultsFound w
  end.

(** [payment.event] and [payment.user]: the rows the foreign keys name. *)
Definition event_by_id (id : Z) (d : DB) : option Event :=
  snd <$> list_find (λ e, event_id e = id) (events d).

Definition user_by_id (id : Z) (d : DB) : option User :=
  (λ x, snd (snd x)) <$>
    list_find (λ kv, user_id (snd kv) = id) (map_to_list (users d)).

(** Writing a changed event row back ([session.commit()]). *)
Definition store_event (e' : Event) (d : DB) : DB :=
  set_events ((λ e, if decide (event_id e = event_id e') then e' else e)
                <$> events d) d.

(** [await join_event(session, event, user)] on the rows of the store. *)
Definition session_join_event (event : Event) (user : User) : M bool :=
  let '(admitted, event') := join_event event (user_id user) in
  modify_db (store_event event');; mret admitted.

(** ** payments.py and the webhook handler of bot.py *)

(** What [json.loads] returns: [dict] as a finite map. *)
#[local] Unset Elimination Schemes.
Inductive json :=
| JNull
| JBool (b : bool)
| JNum (n : Z)
| JStr (s : string)
| JArr (items : list json)
| JObj (fields : gmap string json).
#[local] Set Elimination Schemes.

(** What the program takes from outside its own sources: the environment
    variables, the payment gateway's verification primitive, the JSON
    parser, the database driver and the text tables of [texts.py]. *)
Record Env := mkEnv {
  ADMIN_ID : Z;
  WEBHOOK_SECRET : option string;
  (** [stripe.Webhook.construct_event(payload, sig_header, secret)]:
      [true] when it returns an event, [false] when it raises. *)
  construct_event : string → string → option string → bool;
  (** [json.loads]: [None] when it raises [JSONDecodeError]. *)
  json_loads : string → option json;
  (** The text the driver compares a bound parameter that is not a [str]
      with; [None] when the driver refuses the value. *)
  bind_non_str : json → option string;
  (** [TEXTS[lang][key]] and [get_text(key, lang)] of [texts.py], which
      is taken to hold every text the handlers look up. *)
  TEXTS : string → string → string;
  get_text : string → string → string;
  (** The bot's own user name, which aiogram compares command mentions
      with. *)
  bot_username : string
}.

(** [verify_webhook_signature(payload, sig_header)] of payments.py. *)
Definition verify_webhook_signature (env : Env) (payload sig_header : string)
  : bool :=
  construct_event env payload sig_header (WEBHOOK_SECRET env).

(** The global names of bot.py: what its [import] statements bind (from
    payments.py they are [create_payment_intent] and [format_price]) and
    what it defines or assigns at module level. *)
Definition bot_imports : list string :=
  [
   "asyncio"; "logging"; "os"; "datetime"; "timedelta"; "Any"; "Dict";
   "Optional"; "Union"; "json"; "Bot"; "Dispatcher"; "F"; "Router";
   "ParseMode"; "Command"; "CommandStart"; "FSMContext"; "MemoryStorage";
   "CallbackQuery"; "Message"; "ReplyKeyboardRemove"; "Contact";
   "PreCheckoutQuery"; "LabeledPrice"; "BotCommand";
   "DefaultBotProperties"; "load_dotenv"; "select"; "AsyncSession";
   "DBMessage"; "BroadcastMessage"; "User"; "Event"; "DatabaseMiddleware";
   "get_users_by_language"; "init_db"; "mark_message_sent_to_user";
   "save_broadcast_message"; "create_event"; "get_user_events";
   "get_available_events"; "join_event"; "leave_event"; "cancel_event";
   "create_payment"; "update_payment_status"; "get_upcoming_events";
   "get_past_events"; "import_meetupshare_event"; "get_or_create_user";
   "get_admin_chat_keyboard"; "get_admin_main_keyboard";
   "get_broadcast_confirmation_keyboard"; "get_broadcast_target_keyboard";
   "get_language_keyboard"; "get_phone_number_keyboard";
   "get_main_keyboard"; "get_events_keyboard";
   "get_event_actions_keyboard"; "get_event_type_keyboard";
   "get_difficulty_keyboard"; "format_event_info";
   "create_payment_intent"; "format_price"; "setup_scheduler";
   "BroadcastStates"; "RegistrationStates"; "EventStates"; "get_text";
   "TEXTS" ].

Definition bot_definitions : list string :=
  [
   "logger"; "TOKEN"; "ADMIN_ID"; "admin_router"; "user_router";
   "last_activity"; "broadcast_data"; "save_message"; "cmd_start";
   "cmd_help"; "text_help"; "process_language_selection"; "process_name";
   "process_phone"; "process_country"; "process_about"; "process_skip";
   "handle_user_message"; "admin_panel"; "create_broadcast";
   "process_broadcast"; "list_chats"; "show_chat_history";
   "show_events_menu"; "show_my_events"; "create_event_start";
   "process_event_type"; "process_event_theme"; "process_difficulty";
   "process_music_genre"; "process_max_teams"; "process_team_size";
   "show_available_events"; "join_event_callback"; "leave_event_callback";
   "cancel_event_callback"; "return_to_events_menu"; "stripe_webhook";
   "setup_bot_commands"; "cmd_settings"; "cmd_cancel"; "cmd_events";
   "cmd_my_events"; "cmd_create_event"; "cmd_available_events";
   "show_past_events"; "import_meetupshare"; "main" ].

Definition bot_globals : list string := bot_imports ++ bot_definitions.

(** Looking a global name up at call time: [NameError] when the module
    does not bind it (none of the names looked up here is a builtin). *)
Definition global_name (bound : list string) (name : string) : M unit :=
  if decide (name ∈ bound) then mret tt else raise (NameError name).

(** [obj[key]] on a parsed JSON value with a [str] key. *)
Definition getitem (obj : json) (key : string) : M json :=
  match obj with
  | JObj fields =>
      match fields !! key with
      | Some v => mret v
      | None => raise (KeyError key)
      end
  | _ => raise TypeError
  end.

(** [x == "literal"] for a parsed JSON value. *)
Definition json_is_str (x : json) (s : string) : bool :=
  match x with JStr t => bool_decide (t = s) | _ => false end.

(** The value of a bound parameter as the database compares it. *)
Definition bound_text (env : Env) (x : json) : M string :=
  match x with
  | JStr s => mret s
  | _ => match bind_non_str env x with
         | Some s => mret s
         | None => raise InterfaceError
         end
  end.

(** The parts of aiogram's [Message], [CallbackQuery], [Contact],
    [WebAppData] and [User] objects that the embedded handlers and filters
    read.  Media captions, which the command filter would read in place of
    a missing text, are left out: every message here is a text, a shared
    contact or a web-app payload. *)
Record WebAppData := mkWebAppData {
  wad_data : string;
  button_text : string
}.

Record TelegramUser := mkTelegramUser {
  tg_id : Z;
  tg_username : option string;
  tg_first_name : string;
  tg_last_name : option string
}.

Record Contact := mkContact { contact_phone_number : string }.

Record Message := mkMessage {
  from_user : TelegramUser;
  text : option string;
  contact : option Contact;
  web_app_data : option WebAppData
}.

Record CallbackQuery := mkCallbackQuery {
  cb_from_user : TelegramUser;
  cb_data : string
}.

(** [stripe_webhook(message, session)], in a module whose globals bind the
    names [bound]. *)
Definition stripe_webhook_in (bound : list string) (env : Env)
    (message : Message) : M unit :=
  try_except
    (match web_app_data message with
     | None => mret tt
     | Some wad =>
         let payload := wad_data wad in
         let sig_header := button_text wad in
         global_name bound "verify_webhook_signature";;
         if negb (verify_webhook_signature env payload sig_header)
         then mret tt
         else
           event_json ← (match json_loads env payload with
                         | Some j => mret j
                         | None => raise JSONDecodeError
                         end);
           event_type ← getitem event_json "type";
           if json_is_str event_type "payment_intent.succeeded"
           then
             data ← getitem event_json "data";
             payment_intent ← getitem data "object";
             payment_intent_id ← getitem payment_intent "id";
             id ← bound_text env payment_intent_id;
             payment ← update_payment_status id "succeeded";
             match payment with
             | Some p =>
                 w ← get_world;
                 event ← (match event_by_id (payment_event_id p) (db w) with
                          | Some e => mret e
                          | None => raise AttributeError
                          end);
                 user ← (match user_by_id (payment_user_id p) (db w) with
                         | Some u => mret u
                         | None => raise AttributeError
                         end);
                 session_join_event event user;;
                 let success_message :=
                   TEXTS env (language user) "payment_success" in
                 try_except
                   (send_message (telegram_id user) success_message)
                   (λ _, mret tt)
             | None => mret tt
             end
           else mret tt
     end)
    (λ _, mret tt).

(** The handler as bot.py has it. *)
Definition stripe_webhook : Env → Message → M unit :=
  stripe_webhook_in bot_globals.

(** ** Python [str] operations used by the handlers and filters *)

(** The code points of a text, decoded from its UTF-8 bytes: [pending] is
    the code point under construction and the number of continuation bytes
    it still waits for. *)
Fixpoint decode_utf8 (pending : option (N * nat)) (s : string) : list N :=
  match s with
  | EmptyString => []
  | String c s' =>
      let b := N_of_ascii c in
      match pending with
      | Some (v, S k) =>
          let v' := (v * 64 + N.land b 63)%N in
          match k with
          | O => v' :: decode_utf8 None s'
          | S _ => decode_utf8 (Some (v', k)) s'
          end
      | _ =>
          if (b <? 128)%N then b :: decode_utf8 None s'
          else if (b <? 224)%N then decode_utf8 (Some (N.land b 31, 1%nat)) s'
          else if (b <? 240)%N then decode_utf8 (Some (N.land b 15, 2%nat)) s'
          else decode_utf8 (Some (N.land b 7, 3%nat)) s'
      end
  end.

Definition code_points (s : string) : list N := decode_utf8 None s.

(** [len(s)]: the number of code points. *)
Definition py_len (s : string) : Z := len (code_points s).

(** [c.isspace()]. *)
Definition isspace (c : N) : bool :=
  ((9 <=? c) && (c <=? 13) || (28 <=? c) && (c <=? 32)
   || (c =? 133) || (c =? 160) || (c =? 5760)
   || (8192 <=? c) && (c <=? 8202) || (c =? 8232) || (c =? 8233)
   || (c =? 8239) || (c =? 8287) || (c =? 12288))%N.

(** [c.lower()] on Latin and Cyrillic capitals; every other code point is
    left as it is.  The texts compared below are made of Latin and
    Cyrillic small letters, into which only their own capitals lower. *)
Definition lower_cp (c : N) : N :=
  (if (65 <=? c) && (c <=? 90) then c + 32
   else if (1040 <=? c) && (c <=? 1071) then c + 32
   else if (1024 <=? c) && (c <=? 1039) then c + 80
   else c)%N.

Definition lower (s : list N) : list N := lower_cp <$> s.

(** [s.split(sep)] for a one-character ASCII separator. *)
Fixpoint split (sep : ascii) (s : string) : list string :=
  match s with
  | EmptyString => [EmptyString]
  | String c s' =>
      if decide (c = sep) then EmptyString :: split sep s'
      else match split sep s' with
           | [] => [String c EmptyString]
           | part :: parts => String c part :: parts
           end
  end.

(** [s.split(maxsplit=1)[0]]: the first whitespace-delimited token, [None]
    when there is none. *)
Fixpoint skip_spaces (s : list N) : list N :=
  match s with
  | c :: s' => if isspace c then skip_spaces s' else s
  | [] => []
  end.

Fixpoint until_space (s : list N) : list N :=
  match s with
  | c :: s' => if isspace c then [] else c :: until_space s'
  | [] => []
  end.

Definition first_token (s : list N) : option (list N) :=
  match skip_spaces s with
  | [] => None
  | rest => Some (until_space rest)
  end.

(** [s.partition("@")]: the text before the first [@] and, when there is
    one, the text after it. *)
Fixpoint partition_at (s : list N) : list N * option (list N) :=
  match s with
  | [] => ([], None)
  | c :: s' =>
      if (c =? 64)%N then ([], Some s')
      else let '(before, after) := partition_at s' in (c :: before, after)
  end.

(** ** aiogram filters *)

(** [Command(name)]: the first token of the text is [/name], possibly
    followed by [@mention]; a non-empty mention has to be the bot's own
    user name, compared in lower case. *)
Definition Command (env : Env) (name : string) (message : Message) : bool :=
  match text message with
  | None => false
  | Some t =>
      match first_token (code_points t) with
      | Some (prefix :: full) =>
          let '(command, mention) := partition_at full in
          (prefix =? 47)%N
          && match mention with
             | Some (c :: m) =>
                 match code_points (bot_username env) with
                 | [] => true
                 | me => bool_decide (lower (c :: m) = lower me)
                 end
             | _ => true
             end
          && bool_decide (command = code_points name)
      | _ => false
      end
  end.

Definition CommandStart (env : Env) : Message → bool := Command env "start".

(** [lambda message: message.text and message.text.lower() in
    ['help', 'помощь']], the filter of [text_help]. *)
Definition text_help_filter (message : Message) : bool :=
  match text message with
  | None | Some EmptyString => false
  | Some t =>
      bool_decide (lower (code_points t)
                   ∈ [code_points "help";
                      [1087; 1086; 1084; 1086; 1097; 1100]%N])
  end.

(** [F.text]: the message has a non-empty text. *)
Definition F_text (message : Message) : bool :=
  match text message with
  | None | Some EmptyString => false
  | Some _ => true
  end.

(** ** aiogram's [FSMContext] for the user [key] *)

Definition fsm_record (key : Z) (w : World) : FSMRecord :=
  default (mkFSM None ∅) (storage w !! key).

Definition get_state (key : Z) : M (option State) :=
  w ← get_world; mret (fsm_state (fsm_record key w)).

Definition get_data (key : Z) : M (gmap string string) :=
  w ← get_world; mret (fsm_data (fsm_record key w)).

Definition set_state (key : Z) (st : option State) : M unit :=
  modify (λ w, set_storage
                 (<[key := mkFSM st (fsm_data (fsm_record key w))]> (storage w))
                 w).

Definition update_data (key : Z) (name value : string) : M unit :=
  modify (λ w, set_storage
                 (<[key := mkFSM (fsm_state (fsm_record key w))
                                 (<[name := value]> (fsm_data (fsm_record key w)))]>
                    (storage w))
                 w).

(** [state.clear()]: no state and an empty data dict. *)
Definition clear (key : Z) : M unit :=
  modify (λ w, set_storage (<[key := mkFSM None ∅]> (storage w)) w).

(** ** bot.py: the user directory *)

(** The primary key an inserted row gets: one more than the largest in
    the table. *)
Definition next_user_id (d : DB) : Z :=
  1 + map_fold (λ _ u acc, Z.max (user_id u) acc) 0 (users d).

(** [get_or_create_user(session, telegram_user)]. *)
Definition get_or_create_user (telegram_user : TelegramUser) : M User := λ w,
  match users (db w) !! tg_id telegram_user with
  | Some user => Return user w
  | None =>
      let user :=
        mkUser (next_user_id (db w)) (tg_id telegram_user)
               (tg_username telegram_user) (tg_first_name telegram_user)
               (tg_last_name telegram_user)
               None None None "en" None false in
      Return user
        (set_db (set_users (<[tg_id telegram_user := user]> (users (db w)))
                           (db w)) w)
  end.

Definition set_language (v : string) (u : User) : User :=
  mkUser (user_id u) (telegram_id u) (username u) (first_name u) (last_name u)
    (phone_number u) (real_name u) (country u) v (about u)
    (registration_complete u).
Definition set_real_name (v : option string) (u : User) : User :=
  mkUser (user_id u) (telegram_id u) (username u) (first_name u) (last_name u)
    (phone_number u) v (country u) (language u) (about u)
    (registration_complete u).
Definition set_phone_number (v : option string) (u : User) : User :=
  mkUser (user_id u) (telegram_id u) (username u) (first_name u) (last_name u)
    v (real_name u) (country u) (language u) (about u)
    (registration_complete u).
Definition set_country (v : option string) (u : User) : User :=
  mkUser (user_id u) (telegram_id u) (username u) (first_name u) (last_name u)
    (phone_number u) (real_name u) v (language u) (about u)
    (registration_complete u).
Definition set_about (v : option string) (u : User) : User :=
  mkUser (user_id u) (telegram_id u) (username u) (first_name u) (last_name u)
    (phone_number u) (real_name u) (country u) (language u) v
    (registration_complete u).
Definition set_registration_complete (v : bool) (u : User) : User :=
  mkUser (user_id u) (telegram_id u) (username u) (first_name u) (last_name u)
    (phone_number u) (real_name u) (country u) (language u) (about u) v.

(** [await session.commit()] after assignments to attributes of [user]:
    the row of that user is written back. *)
Definition commit_user (user : User) : M unit :=
  modify_db (λ d, set_users (<[telegram_id user := user]> (users d)) d).

(** ** bot.py: the registration handlers *)

(** [message.answer(text)]: a private chat has the id of its user. *)
Definition answer (message : Message) (t : string) : M unit :=
  send_message (tg_id (from_user message)) t.

Definition nl : string := String (ascii_of_nat 10) EmptyString.

Definition generic_error : string :=
  "An error occurred. Please try again later." ++ nl ++
  "Произошла ошибка. Пожалуйста, попробуйте позже.".

(** [x or 'Not specified'] for an optional text, and an optional text
    inside an f-string. *)
Definition or_default (x : option string) (d : string) : string :=
  match x with
  | None | Some EmptyString => d
  | Some s => s
  end.

Definition fmt (x : option string) : string := default "None" x.

(** The text that tells the administrator about a completed registration. *)
Definition admin_message (user : User) (message : Message) : string :=
  "New user registered:" ++ nl ++
  "Name: " ++ fmt (real_name user) ++ nl ++
  "Phone: " ++ fmt (phone_number user) ++ nl ++
  "Country: " ++ or_default (country user) "Not specified" ++ nl ++
  "About: " ++ or_default (about user) "Not specified" ++ nl ++
  "Language: " ++ language user ++ nl ++
  "Username: @" ++ or_default (tg_username (from_user message)) "None" ++ nl ++
  "Telegram ID: " ++ pretty (tg_id (from_user message)).

Definition notify_admin (env : Env) (user : User) (message : Message)
  : M unit :=
  if decide (tg_id (from_user message) ≠ ADMIN_ID env)
  then send_message (ADMIN_ID env) (admin_message user message)
  else mret tt.

(** [cmd_start(message, state)]. *)
Definition cmd_start (env : Env) (message : Message) : M unit :=
  let key := tg_id (from_user message) in
  try_except
    (user ← get_or_create_user (from_user message);
     if negb (registration_complete user)
     then
       clear key;;
       answer message (TEXTS env "en" "welcome");;
       set_state key (Some RegistrationStates_waiting_for_language)
     else
       let lang := language user in
       answer message (TEXTS env lang "welcome");;
       answer message (TEXTS env lang "help"))
    (λ _, answer message generic_error).

(** [process_language_selection(callback, state)]. *)
Definition process_language_selection (env : Env) (callback : CallbackQuery)
  : M unit :=
  let key := tg_id (cb_from_user callback) in
  try_except
    (user ← get_or_create_user (cb_from_user callback);
     language ← (match split "_" (cb_data callback) !! 1%nat with
                 | Some l => mret l
                 | None => raise IndexError
                 end);
     commit_user (set_language language user);;
     send_message key (get_text env "name_request" language);;
     set_state key (Some RegistrationStates_waiting_for_name);;
     update_data key "language" language)
    (λ _, send_message key (get_text env "error_occurred" "en")).

(** [state_data.get("language", "en")]. *)
Definition language_of (data : gmap string string) : string :=
  default "en" (data !! "language").

(* The four state handlers below bind [user], [state_data] and [language]
   at the head of their [try] block; the calls that bind them do not raise
   here, so the [try] is opened after them and its [except] branch can
   name [language], as the source does. *)

(** [process_name(message, state)]. *)
Definition process_name (env : Env) (message : Message) : M unit :=
  let key := tg_id (from_user message) in
  user ← get_or_create_user (from_user message);
  state_data ← get_data key;
  let language := language_of state_data in
  try_except
    (match text message with
     | Some t =>
         if bool_decide (t = "") || (py_len t <? 2)
         then answer message (get_text env "invalid_name" language)
         else
           commit_user (set_real_name (Some t) user);;
           answer message (get_text env "phone_request" language);;
           set_state key (Some RegistrationStates_waiting_for_phone)
     | None => answer message (get_text env "invalid_name" language)
     end)
    (λ _, answer message (get_text env "error_occurred" language)).

(** [process_phone(message, state)]. *)
Definition process_phone (env : Env) (message : Message) : M unit :=
  let key := tg_id (from_user message) in
  user ← get_or_create_user (from_user message);
  state_data ← get_data key;
  let language := language_of state_data in
  try_except
    (match contact message with
     | Some (mkContact (String c n)) =>
         commit_user (set_phone_number (Some (String c n)) user);;
         answer message (get_text env "country_request" language);;
         set_state key (Some RegistrationStates_waiting_for_country)
     | _ => answer message (get_text env "invalid_phone" language)
     end)
    (λ _, answer message (get_text env "error_occurred" language)).

(** [process_country(message, state)]. *)
Definition process_country (env : Env) (message : Message) : M unit :=
  let key := tg_id (from_user message) in
  user ← get_or_create_user (from_user message);
  state_data ← get_data key;
  let language := language_of state_data in
  try_except
    (if bool_decide (text message = Some "/skip")
     then
       commit_user (set_country None user);;
       answer message (get_text env "skip_received" language);;
       answer message (get_text env "about_request" language);;
       set_state key (Some RegistrationStates_waiting_for_about)
     else
       commit_user (set_country (text message) user);;
       answer message (get_text env "about_request" language);;
       set_state key (Some RegistrationStates_waiting_for_about))
    (λ _, answer message (get_text env "error_occurred" language)).

(** [process_about(message, state)]. *)
Definition process_about (env : Env) (message : Message) : M unit :=
  let key := tg_id (from_user message) in
  user ← get_or_create_user (from_user message);
  state_data ← get_data key;
  let language := language_of state_data in
  try_except
    (if bool_decide (text message = Some "/skip")
     then
       let user' := set_registration_complete true (set_about None user) in
       commit_user user';;
       answer message (get_text env "skip_received" language);;
       answer message (get_text env "registration_complete" language);;
       clear key;;
       notify_admin env user' message
     else
       let user' :=
         set_registration_complete true (set_about (text message) user) in
       commit_user user';;
       answer message (get_text env "registration_complete" language);;
       clear key;;
       notify_admin env user' message)
    (λ _, answer message (get_text env "error_occurred" language)).

(** ** bot.py: which handler an update reaches

    [main] includes [admin_router] before [user_router]; inside a router
    the handlers are tried in the order of their decorators and the first
    whose filter accepts the update runs. *)

Inductive Update :=
| MessageUpdate (message : Message)
| CallbackUpdate (callback : CallbackQuery).

Inductive MessageHandler :=
| H_admin_panel | H_import_meetupshare
| H_cmd_start | H_cmd_help | H_text_help
| H_process_name | H_process_phone | H_process_country | H_process_about
| H_process_skip | H_handle_user_message
| H_process_event_theme | H_process_music_genre
| H_process_max_teams | H_process_team_size.

Definition in_state (st : option State) (s : State) : bool :=
  bool_decide (st = Some s).

(** The message handlers registered after [handle_user_message] whose
    filter is a state; the others registered after it ([F.text.in_],
    [F.text ==], [Command]) need a text, and a message with a text is
    taken by [handle_user_message] before them. *)
Definition route_message (env : Env) (st : option State) (m : Message)
  : option MessageHandler :=
  if Command env "admin" m then Some H_admin_panel
  else if Command env "import_meetupshare" m then Some H_import_meetupshare
  else if CommandStart env m then Some H_cmd_start
  else if Command env "help" m then Some H_cmd_help
  else if text_help_filter m then Some H_text_help
  else if in_state st RegistrationStates_waiting_for_name
       then Some H_process_name
  else if in_state st RegistrationStates_waiting_for_phone
       then Some H_process_phone
  else if in_state st RegistrationStates_waiting_for_country
       then Some H_process_country
  else if in_state st RegistrationStates_waiting_for_about
       then Some H_process_about
  else if Command env "skip" m then Some H_process_skip
  else if F_text m then Some H_handle_user_message
  else if in_state st EventStates_waiting_for_theme
       then Some H_process_event_theme
  else if in_state st EventStates_waiting_for_music_genre
       then Some H_process_music_genre
  else if in_state st EventStates_waiting_for_max_teams
       then Some H_process_max_teams
  else if in_state st EventStates_waiting_for_team_size
       then Some H_process_team_size
  else None.

Inductive CallbackHandler :=
| H_create_broadcast | H_process_broadcast | H_list_chats
| H_show_chat_history
| H_process_language_selection
| H_other_callback.

Definition route_callback (c : CallbackQuery) : CallbackHandler :=
  let data := cb_data c in
  if bool_decide (data = "create_broadcast") then H_create_broadcast
  else if String.prefix "broadcast_" data then H_process_broadcast
  else if bool_decide (data = "list_chats") then H_list_chats
  else if String.prefix "history_" data then H_show_chat_history
  else if String.prefix "lang_" data then H_process_language_selection
  else H_other_callback.

(** Whether an update went to one of the handlers embedded above. *)
Inductive routed := Embedded | Elsewhere.

(** One turn of the dispatcher.  An update for a handler that is not
    embedded here is reported as [Elsewhere] and leaves the world as it
    was. *)
Definition feed_update (env : Env) (u : Update) : M routed :=
  match u with
  | MessageUpdate m =>
      st ← get_state (tg_id (from_user m));
      match route_message env st m with
      | Some H_cmd_start => cmd_start env m;; mret Embedded
      | Some H_process_name => process_name env m;; mret Embedded
      | Some H_process_phone => process_phone env m;; mret Embedded
      | Some H_process_country => process_country env m;; mret Embedded
      | Some H_process_about => process_about env m;; mret Embedded
      | _ => mret Elsewhere
      end
  | CallbackUpdate c =>
      match route_callback c with
      | H_process_language_selection =>
          process_language_selection env c;; mret Embedded
      | _ => mret Elsewhere
      end
  end.

(** A run of updates from the user [key]: after each, where it went and
    the state the user's session is in. *)
Fixpoint run_updates (env : Env) (key : Z) (us : list Update)
  : M (list (routed * option State)) :=
  match us with
  | [] => mret []
  | u :: us' =>
      r ← feed_update env u;
      st ← get_state key;
      rest ← run_updates env key us';
      mret ((r, st) :: rest)
  end.

Definition text_message (u : TelegramUser) (t : string) : Message :=
  mkMessage u (Some t) None None.

Definition contact_message (u : TelegramUser) (phone : string) : Message :=
  mkMessage u None (Some (mkContact phone)) None.

(** The updates of a registration in which both optional steps are
    skipped: [/start], the language button, the name, the shared contact
    and [/skip] twice. *)
Definition registration_run (u : TelegramUser) (choice name phone : string)
  : list Update :=
  [ MessageUpdate (text_message u "/start");
    CallbackUpdate (mkCallbackQuery u ("lang_" ++ choice));
    MessageUpdate (text_message u name);
    MessageUpdate (contact_message u phone);
    MessageUpdate (text_message u "/skip");
    MessageUpdate (text_message u "/skip") ].

(** ** Vocabulary of the properties *)

(** An event has room: it has no cap, or fewer participants than its cap. *)
Definition has_room (event : Event) : Prop :=
  match max_participants event with
  | None => True
  | Some n => len (participants event) < n
  end.

(** The type a webhook payload reports, when it parses to an object with
    a [type] entry, and whether that is the success type. *)
Definition reported_type (env : Env) (message : Message) : option json :=
  wad ← web_app_data message;
  j ← json_loads env (wad_data wad);
  match j with
  | JObj fields => fields !! "type"
  | _ => None
  end.

Definition reports_succeeded (env : Env) (message : Message) : bool :=
  match reported_type env message with
  | Some t => json_is_str t "payment_intent.succeeded"
  | None => false
  end.

(** The payments table after the rows with the Stripe id [id] are marked
    succeeded: the one write the webhook handler can make to it. *)
Definition mark_succeeded (id : string) (rows : list Payment)
  : list Payment :=
  (λ q, if decide (stripe_payment_id q = id)
        then set_status "succeeded" q else q) <$> rows.

(** A user who has not completed a registration: no row yet, or a row,
    stored under its Telegram id, that is not marked complete. *)
Definition unregistered (d : DB) (u : TelegramUser) : Prop :=
  match users d !! tg_id u with
  | None => True
  | Some row => telegram_id row = tg_id u ∧ registration_complete row = false
  end.

(** What a registration handler finds and leaves behind for the user
    [u]: the user's row and the state of the user's session. *)
Definition stands (u : TelegramUser) (w : World) (row : User)
    (st : option State) : Prop :=
  users (db w) !! tg_id u = Some row
  ∧ telegram_id row = tg_id u
  ∧ fsm_state (fsm_record (tg_id u) w) = st.

(** ** Sample data *)

Definition sample_event (cap : option Z) (ps : list Z) : Event :=
  mkEvent 1 "Quiz night" "General knowledge" "Cafe" (5 * one_day) cap None
    "quiz" (Some "easy") None None None None 1 ps true false.

Definition dated_event (id date : Z) (active sent : bool) : Event :=
  mkEvent id "Party" "Friday" "Club" date None None
    "party" None None None None None 1 [] active sent.

(** A stand-in for the world outside: a gateway that accepts a payload
    when the signature header equals the secret, a parser that knows the
    two envelopes below, a driver that refuses every parameter that is not
    a [str], and text tables that answer with the key itself. *)
Definition envelope (type id : string) : json :=
  JObj (<["data" := JObj {["object" := JObj {["id" := JStr id]}]}]>
          {["type" := JStr type]}).

Definition demo_env : Env :=
  mkEnv 999 (Some "whsec_demo")
    (λ payload sig_header secret, bool_decide (secret = Some sig_header))
    (λ payload,
       if bool_decide (payload = "succeeded pi_1")
       then Some (envelope "payment_intent.succeeded" "pi_1")
       else if bool_decide (payload = "payment_failed pi_1")
       then Some (envelope "payment_intent.payment_failed" "pi_1")
       else None)
    (λ _, None)
    (λ lang key, key)
    (λ key lang, key)
    "meetup_bot".

Definition alice : TelegramUser := mkTelegramUser 100 (Some "alice") "Alice" None.

Definition alice_row : User :=
  mkUser 1 100 (Some "alice") "Alice" None (Some "+100") (Some "Alice")
    None "en" None true.

(** Alice has a pending payment for an event with two seats, one taken. *)
Definition demo_world : World :=
  mkWorld
    (mkDB {[100 := alice_row]}
          [sample_event (Some 2) [5]]
          [mkPayment 1 "pi_1" 4900 "usd" "pending" 1 1])
    ∅ [].

Definition webhook_message (payload sig_header : string) : Message :=
  mkMessage alice (Some "/stripe/webhook") None
    (Some (mkWebAppData payload sig_header)).

(** The world after Alice's payment was confirmed once. *)
Definition paid_world : World :=
  mkWorld
    (mkDB {[100 := alice_row]}
          [sample_event (Some 2) [5; 1]]
          [mkPayment 1 "pi_1" 4900 "usd" "succeeded" 1 1])
    ∅ [(100, "payment_success")].

(** Bob has never talked to the bot. *)
Definition bob : TelegramUser := mkTelegramUser 200 (Some "bob") "Bob" None.

(** bot.py's globals with the name it calls but does not import. *)
Definition repaired_globals : list string :=
  "verify_webhook_signature" :: bot_globals.

(** The primary keys of the events a query returned. *)
Definition returned_ids (o : outcome (list Event)) : option (list Z) :=
  match o with
  | Return r _ => Some (event_id <$> r)
  | Raise _ _ => None
  end.

(** ** More of database.py *)

(** [get_available_events(session, exclude_user_id)]: [if exclude_user_id]
    is false for [None] and for [0]. *)
Definition get_available_events (exclude_user_id : option Z)
  : M (list Event) :=
  w ← get_world;
  let active := filter (λ e, is_active e = true) (events (db w)) in
  mret (match exclude_user_id with
        | Some uid =>
            if uid =? 0 then active
            else filter (λ e, creator_id e ≠ uid) active
        | None => active
        end).

(** [user.participated_events]: the events whose roster holds the user. *)
Definition participated_events (user : User) (d : DB) : list Event :=
  filter (λ e, user_id user ∈ participants e) (events d).

(** [get_user_events(session, user, include_participated)]. *)
Definition get_user_events (user : User) (include_participated : bool)
  : M (list Event) :=
  w ← get_world;
  let joined := event_id <$> participated_events user (db w) in
  let own := λ e, creator_id e = user_id user in
  let own_or_joined :=
    λ e, creator_id e = user_id user ∨ event_id e ∈ joined in
  mret (filter (λ e, is_active e = true)
          (if include_participated
           then filter own_or_joined (events (db w))
           else filter own (events (db w)))).

(** The primary key an inserted payment gets. *)
Definition next_payment_id (d : DB) : Z :=
  1 + foldr (λ p acc, Z.max (payment_id p) acc) 0 (payments d).

(** [create_payment(session, user, event, stripe_payment_id, amount,
    currency="usd", status="pending")]. *)
Definition create_payment (user : User) (event : Event)
    (stripe_id : string) (amount : Z) (currency status : string)
  : M Payment := λ w,
  let payment :=
    mkPayment (next_payment_id (db w)) stripe_id amount currency status
              (user_id user) (event_id event) in
  Return payment (set_db (set_payments (payments (db w) ++ [payment]) (db w)) w).

(** [await leave_event(session, event, user)], [await cancel_event(session,
    event)] and [await mark_notification_sent(session, event)] on the rows
    of the store. *)
Definition session_leave_event (event : Event) (user : User) : M unit :=
  modify_db (store_event (leave_event event (user_id user))).

Definition session_cancel_event (event : Event) : M unit :=
  modify_db (store_event (cancel_event event)).


(** ** bot.py: the event callbacks *)

(** What these handlers take from outside the sources modelled so far. *)
Record Outside := mkOutside {
  (** [stripe.PaymentIntent.create(amount, currency, metadata)] for the
      amount, the currency, the event id and the user's Telegram id: the
      intent's id and client secret, [None] when Stripe raises
      [StripeError], which [create_payment_intent] turns into
      [ValueError]. *)
  create_intent : Z → string → Z → Z → option (string * string);
  (** [event_date.strftime("%d.%m.%Y %H:%M")]. *)
  strftime : Z → string;
  (** [format_price(amount, currency)] of payments.py, which divides and
      formats in binary floating point; only the text it yields is taken
      from it. *)
  format_price : Z → string → string
}.


(** [x.real_name or x.first_name]. *)
Definition display_name (u : User) : string :=
  or_default (real_name u) (first_name u).

(** [format_event_info(event, lang)] of bot.py.  [event.creator] is the
    row the foreign key names; without one the attribute access raises. *)
Definition format_event_info (out : Outside) (event : Event) (lang : string)
  : M string :=
  w ← get_world;
  match user_by_id (creator_id event) (db w) with
  | None => raise AttributeError
  | Some creator =>
      let date_str := strftime out (event_date event) in
      let participants_count := pretty (len (participants event)) in
      let max_participants_str :=
        match max_participants event with
        | Some n => if n =? 0 then "" else "/" ++ pretty n
        | None => ""
        end in
      mret (if bool_decide (lang = "en")
            then
              "📅 " ++ title event ++ nl ++ nl ++
              "📝 Description: " ++ description event ++ nl ++
              "📍 Location: " ++ location event ++ nl ++
              "🕒 Date and time: " ++ date_str ++ nl ++
              "👥 Participants: " ++ participants_count
                ++ max_participants_str ++ nl ++
              "👤 Created by: " ++ display_name creator
            else
              "📅 " ++ title event ++ nl ++ nl ++
              "📝 Описание: " ++ description event ++ nl ++
              "📍 Место: " ++ location event ++ nl ++
              "🕒 Дата и время: " ++ date_str ++ nl ++
              "👥 Участники: " ++ participants_count
                ++ max_participants_str ++ nl ++
              "👤 Создал: " ++ display_name creator)
  end.


(** The three callbacks below are the bodies of the handlers after their
    first line, [event_id = int(callback.data.split(":")[1])]: they take
    the sender and the event id that the callback data carries (the
    keyboards build the data from [event.id]).  [callback.answer(text)],
    [callback.message.answer(text)] and [callback.message.edit_text(text)]
    are recorded as texts shown in the sender's chat. *)




(** [cancel_event_callback(callback, session)]. *)
Definition cancel_event_callback (env : Env) (out : Outside)
    (sender : TelegramUser) (event_id : Z) : M unit :=
  let chat := tg_id sender in
  user ← get_or_create_user sender;
  w ← get_world;
  match event_by_id event_id (db w) with
  | Some event =>
      if bool_decide (creator_id event ≠ user_id user)
      then send_message chat (TEXTS env (language user) "event_not_found")
      else
        session_cancel_event event;;
        info ← format_event_info out (cancel_event event) (language user);
        send_message chat
          (info ++ nl ++ nl ++ "❌ "
                ++ TEXTS env (language user) "event_cancelled")
  | None => send_message chat (TEXTS env (language user) "event_not_found")
  end.

(** ** bot.py: the whole table of message handlers *)

(** Every function bot.py registers for messages. *)
Inductive Registered :=
| R_admin_panel | R_import_meetupshare
| R_cmd_start | R_cmd_help | R_text_help
| R_process_name | R_process_phone | R_process_country | R_process_about
| R_process_skip | R_handle_user_message
| R_show_events_menu | R_show_my_events
| R_process_event_theme | R_process_music_genre
| R_process_max_teams | R_process_team_size
| R_stripe_webhook
| R_cmd_settings | R_cmd_cancel | R_cmd_events | R_cmd_my_events
| R_cmd_create_event | R_cmd_available_events.

#[global] Instance Registered_eq_dec : EqDecision Registered.
Proof. solve_decision. Defined.

(** [F.text.in_(texts)] and [F.text == s]. *)
Definition F_text_in (texts : list string) (m : Message) : bool :=
  match text m with
  | Some t => bool_decide (t ∈ texts)
  | None => false
  end.

Definition F_text_eq (s : string) (m : Message) : bool :=
  bool_decide (text m = Some s).

(** A registered handler with its filter, which reads the session state
    and the message. *)
Definition Entry : Type := Registered * (Env → option State → Message → bool).

(** The decorators [@admin_router.message(...)], in file order. *)
Definition admin_router_messages : list Entry :=
  [ (R_admin_panel, λ env _ m, Command env "admin" m);
    (R_import_meetupshare, λ env _ m, Command env "import_meetupshare" m) ].

(** The decorators [@user_router.message(...)], in file order. *)
Definition user_router_messages : list Entry :=
  [ (R_cmd_start, λ env _ m, CommandStart env m);
    (R_cmd_help, λ env _ m, Command env "help" m);
    (R_text_help, λ _ _ m, text_help_filter m);
    (R_process_name,
     λ _ st _, in_state st RegistrationStates_waiting_for_name);
    (R_process_phone,
     λ _ st _, in_state st RegistrationStates_waiting_for_phone);
    (R_process_country,
     λ _ st _, in_state st RegistrationStates_waiting_for_country);
    (R_process_about,
     λ _ st _, in_state st RegistrationStates_waiting_for_about);
    (R_process_skip, λ env _ m, Command env "skip" m);
    (R_handle_user_message, λ _ _ m, F_text m);
    (R_show_events_menu,
     λ _ _ m, F_text_in ["📅 Events"; "📅 События"] m);
    (R_show_my_events,
     λ _ _ m, F_text_in ["🎯 My Events"; "🎯 Мои события"] m);
    (R_process_event_theme,
     λ _ st _, in_state st EventStates_waiting_for_theme);
    (R_process_music_genre,
     λ _ st _, in_state st EventStates_waiting_for_music_genre);
    (R_process_max_teams,
     λ _ st _, in_state st EventStates_waiting_for_max_teams);
    (R_process_team_size,
     λ _ st _, in_state st EventStates_waiting_for_team_size);
    (R_stripe_webhook, λ _ _ m, F_text_eq "/stripe/webhook" m);
    (R_cmd_settings, λ env _ m, Command env "settings" m);
    (R_cmd_cancel, λ env _ m, Command env "cancel" m);
    (R_cmd_events, λ env _ m, Command env "events" m);
    (R_cmd_my_events, λ env _ m, Command env "my_events" m);
    (R_cmd_create_event, λ env _ m, Command env "create_event" m);
    (R_cmd_available_events,
     λ env _ m, Command env "available_events" m) ].

(** The first entry whose filter accepts the message, the routers in the
    order [main] includes them. *)
Fixpoint first_accepting (env : Env) (st : option State) (m : Message)
    (table : list Entry) : option Registered :=
  match table with
  | [] => None
  | (h, accepts) :: rest =>
      if accepts env st m then Some h else first_accepting env st m rest
  end.

Definition dispatch_message (env : Env) (st : option State) (m : Message)
  : option Registered :=
  first_accepting env st m (admin_router_messages ++ user_router_messages).

(** The entry each route of [route_message] stands for. *)
Definition registered_of (h : MessageHandler) : Registered :=
  match h with
  | H_admin_panel => R_admin_panel
  | H_import_meetupshare => R_import_meetupshare
  | H_cmd_start => R_cmd_start
  | H_cmd_help => R_cmd_help
  | H_text_help => R_text_help
  | H_process_name => R_process_name
  | H_process_phone => R_process_phone
  | H_process_country => R_process_country
  | H_process_about => R_process_about
  | H_process_skip => R_process_skip
  | H_handle_user_message => R_handle_user_message
  | H_process_event_theme => R_process_event_theme
  | H_process_music_genre => R_process_music_genre
  | H_process_max_teams => R_process_max_teams
  | H_process_team_size => R_process_team_size
  end.


(** ** bot.py: [/cancel], [/skip] and [/settings] *)

(** [user.language if user and user.registration_complete else "en"]. *)
Definition reply_language (user : User) : string :=
  if registration_complete user then language user else "en".

(** [cmd_cancel(message, state)]. *)
Definition cmd_cancel (env : Env) (message : Message) : M unit :=
  let key := tg_id (from_user message) in
  try_except
    (user ← get_or_create_user (from_user message);
     let lang := reply_language user in
     current_state ← get_state key;
     match current_state with
     | None =>
         answer message (if bool_decide (lang = "en")
                         then "🤔 There's nothing to cancel"
                         else "🤔 Нечего отменять")
     | Some _ =>
         clear key;;
         answer message (if bool_decide (lang = "en")
                         then "❌ Current action cancelled"
                         else "❌ Текущее действие отменено")
     end)
    (λ _, answer message generic_error).

(** [process_skip(message, state)]. *)
Definition process_skip (env : Env) (message : Message) : M unit :=
  let key := tg_id (from_user message) in
  user ← get_or_create_user (from_user message);
  state_data ← get_data key;
  let language := language_of state_data in
  try_except
    (current_state ← get_state key;
     if bool_decide (current_state
                     = Some RegistrationStates_waiting_for_country)
     then
       commit_user (set_country None user);;
       answer message (get_text env "skip_received" language);;
       answer message (get_text env "about_request" language);;
       set_state key (Some RegistrationStates_waiting_for_about)
     else if bool_decide (current_state
                          = Some RegistrationStates_waiting_for_about)
     then
       let user' := set_registration_complete true (set_about None user) in
       commit_user user';;
       answer message (get_text env "skip_received" language);;
       answer message (get_text env "registration_complete" language);;
       clear key;;
       notify_admin env user' message
     else mret tt)
    (λ _, answer message (get_text env "error_occurred" language)).

(** The four values [cmd_settings] puts into its text.  A conditional
    expression binds weaker than [or]: [x or "Not set" if lang == "en"
    else y] is [(x or "Not set") if lang == "en" else y]. *)
Definition settings_values (user : User) (lang : string) : list string :=
  [ if bool_decide (language user = "en") then "English" else "Русский";
    if bool_decide (lang = "en")
    then or_default (phone_number user) "Not set" else "Не указан";
    if bool_decide (lang = "en")
    then or_default (country user) "Not set" else "Не указана";
    if bool_decide (lang = "en")
    then or_default (about user) "Not set" else "Не указано" ].

(** [settings_text.format(a, b, c, d)]: the template has four [{}]. *)
Definition settings_text (lang : string) (values : list string) : string :=
  let v := λ i, default "" (values !! i) in
  if bool_decide (lang = "en")
  then
    "⚙️ Settings:" ++ nl ++ nl ++
    "🌐 Language: " ++ v 0%nat ++ nl ++
    "📱 Phone: " ++ v 1%nat ++ nl ++
    "🌍 Country: " ++ v 2%nat ++ nl ++
    "ℹ️ About: " ++ v 3%nat
  else
    "⚙️ Настройки:" ++ nl ++ nl ++
    "🌐 Язык: " ++ v 0%nat ++ nl ++
    "📱 Телефон: " ++ v 1%nat ++ nl ++
    "🌍 Страна: " ++ v 2%nat ++ nl ++
    "ℹ️ О себе: " ++ v 3%nat.

(** [cmd_settings(message)]. *)
Definition cmd_settings (env : Env) (message : Message) : M unit :=
  try_except
    (user ← get_or_create_user (from_user message);
     let lang := reply_language user in
     if negb (registration_complete user)
     then
       answer message (if bool_decide (lang = "en")
                       then "⚠️ Please complete registration first"
                       else "⚠️ Пожалуйста, сначала завершите регистрацию")
     else
       answer message (settings_text lang (settings_values user lang)))
    (λ _, answer message generic_error).

(** ** scheduler.py *)





(** ** bot.py: the table of callback handlers *)

(** Every function bot.py registers for callback queries. *)
Inductive RegisteredCallback :=
| C_create_broadcast | C_process_broadcast | C_list_chats
| C_show_chat_history
| C_process_language_selection
| C_create_event_start | C_process_event_type | C_process_difficulty
| C_show_available_events
| C_join_event_callback | C_leave_event_callback | C_cancel_event_callback
| C_return_to_events_menu | C_show_past_events.

#[global] Instance RegisteredCallback_eq_dec : EqDecision RegisteredCallback.
Proof. solve_decision. Defined.

(** The two filters the decorators put on [callback.data]:
    [F.data == s] and [F.data.startswith(s)]. *)
Inductive DataFilter :=
| F_data_eq (s : string)
| F_data_startswith (s : string).

Definition data_accepts (f : DataFilter) (data : string) : bool :=
  match f with
  | F_data_eq s => bool_decide (data = s)
  | F_data_startswith s => String.prefix s data
  end.

(** The decorators [@admin_router.callback_query(...)] and
    [@user_router.callback_query(...)], in file order. *)
Definition admin_router_callbacks : list (RegisteredCallback * DataFilter) :=
  [ (C_create_broadcast, F_data_eq "create_broadcast");
    (C_process_broadcast, F_data_startswith "broadcast_");
    (C_list_chats, F_data_eq "list_chats");
    (C_show_chat_history, F_data_startswith "history_") ].

Definition user_router_callbacks : list (RegisteredCallback * DataFilter) :=
  [ (C_process_language_selection, F_data_startswith "lang_");
    (C_create_event_start, F_data_eq "create_event");
    (C_process_event_type, F_data_startswith "event_type:");
    (C_process_difficulty, F_data_startswith "difficulty:");
    (C_show_available_events, F_data_eq "available_events");
    (C_join_event_callback, F_data_startswith "join_event:");
    (C_leave_event_callback, F_data_startswith "leave_event:");
    (C_cancel_event_callback, F_data_startswith "cancel_event:");
    (C_return_to_events_menu, F_data_eq "events_menu");
    (C_show_past_events, F_data_eq "past_events") ].

(** The first entry of a table whose filter accepts the data. *)
Fixpoint first_callback (table : list (RegisteredCallback * DataFilter))
    (data : string) : option RegisteredCallback :=
  match table with
  | [] => None
  | (h, f) :: rest =>
      if data_accepts f data then Some h else first_callback rest data
  end.

Definition dispatch_callback (data : string) : option RegisteredCallback :=
  first_callback (admin_router_callbacks ++ user_router_callbacks) data.

(** ** keyboards.py *)

Record InlineKeyboardButton := mkInlineKeyboardButton {
  label : string;
  callback_data : option string;
  url : option string
}.

Record KeyboardButton := mkKeyboardButton {
  key_text : string;
  request_contact : bool
}.

(** A markup is its rows of buttons. *)
Definition InlineKeyboardMarkup : Type := list (list InlineKeyboardButton).
Definition ReplyKeyboardMarkup : Type := list (list KeyboardButton).

Definition data_button (t data : string) : InlineKeyboardButton :=
  mkInlineKeyboardButton t (Some data) None.

Definition get_admin_chat_keyboard (user_id : Z) (username : string)
  : InlineKeyboardMarkup :=
  [ [ mkInlineKeyboardButton "Открыть чат" None
        (Some ("tg://user?id=" ++ pretty user_id)) ];
    [ data_button "История сообщений" ("history_" ++ pretty user_id) ] ].

Definition get_admin_main_keyboard : InlineKeyboardMarkup :=
  [ [ data_button "Список активных чатов" "list_chats" ];
    [ data_button "Создать рассылку" "create_broadcast" ] ].

Definition get_language_keyboard : InlineKeyboardMarkup :=
  [ [ data_button "🇬🇧 English" "lang_en";
      data_button "🇷🇺 Русский" "lang_ru" ] ].

Definition get_main_keyboard (lang : string) : ReplyKeyboardMarkup :=
  [ [ mkKeyboardButton
        (if bool_decide (lang = "en") then "📅 Events" else "📅 События")
        false;
      mkKeyboardButton
        (if bool_decide (lang = "en") then "🎯 My Events"
         else "🎯 Мои события")
        false ] ].

Definition get_events_keyboard (lang : string) : InlineKeyboardMarkup :=
  if bool_decide (lang = "ru")
  then
    [ [ data_button "➕ Создать событие" "create_event" ];
      [ data_button "🔍 Доступные события" "available_events" ];
      [ data_button "🎯 Мои события" "my_events" ];
      [ data_button "📜 Прошедшие события" "past_events" ] ]
  else
    [ [ data_button "➕ Create Event" "create_event" ];
      [ data_button "🔍 Available Events" "available_events" ];
      [ data_button "🎯 My Events" "my_events" ];
      [ data_button "📜 Past Events" "past_events" ] ].

Definition get_event_actions_keyboard (event_id : Z)
    (is_participant is_creator : bool) (lang : string)
  : InlineKeyboardMarkup :=
  let en := bool_decide (lang = "en") in
  let join_or_leave : InlineKeyboardMarkup :=
    if negb is_creator && negb is_participant
    then [ [ data_button (if en then "✅ Join" else "✅ Присоединиться")
                         ("join_event:" ++ pretty event_id) ] ]
    else if negb is_creator && is_participant
    then [ [ data_button (if en then "❌ Leave" else "❌ Покинуть")
                         ("leave_event:" ++ pretty event_id) ] ]
    else [] in
  let cancel : InlineKeyboardMarkup :=
    if is_creator
    then [ [ data_button (if en then "🚫 Cancel Event"
                          else "🚫 Отменить событие")
                         ("cancel_event:" ++ pretty event_id) ] ]
    else [] in
  let back : InlineKeyboardMarkup :=
    [ [ data_button (if en then "◀️ Back" else "◀️ Назад") "events_menu" ] ] in
  (join_or_leave ++ cancel ++ back)%list.

Definition get_broadcast_confirmation_keyboard (lang : string)
  : InlineKeyboardMarkup :=
  let en := bool_decide (lang = "en") in
  [ [ data_button (if en then "✅ Send to all" else "✅ Отправить всем")
                  "broadcast:all";
      data_button (if en then "🇬🇧 English only" else "🇬🇧 Только английский")
                  "broadcast:en" ];
    [ data_button (if en then "🇷🇺 Russian only" else "🇷🇺 Только русский")
                  "broadcast:ru";
      data_button (if en then "❌ Cancel" else "❌ Отмена")
                  "broadcast:cancel" ] ].

Definition get_broadcast_target_keyboard : InlineKeyboardMarkup :=
  [ [ data_button "Всем пользователям" "broadcast_all" ];
    [ data_button "English users" "broadcast_en";
      data_button "Русскоязычным" "broadcast_ru" ];
    [ data_button "Отмена" "broadcast_cancel" ] ].

Definition get_broadcast_confirm_keyboard : InlineKeyboardMarkup :=
  [ [ data_button "✅ Подтвердить" "broadcast_confirm";
      data_button "❌ Отмена" "broadcast_cancel" ] ].

Definition get_event_type_keyboard : InlineKeyboardMarkup :=
  [ [ data_button "🎯 Quiz" "event_type:quiz";
      data_button "🎵 Music Quiz" "event_type:music_quiz" ];
    [ data_button "🎤 Karaoke" "event_type:karaoke";
      data_button "🎉 Party" "event_type:party" ] ].

Definition get_difficulty_keyboard : InlineKeyboardMarkup :=
  [ [ data_button "😊 Easy" "difficulty:easy";
      data_button "🤔 Medium" "difficulty:medium";
      data_button "🧠 Hard" "difficulty:hard" ] ].

(** ** bot.py: the catch-all [handle_user_message] *)

(** [p in s] on the code points of two texts. *)
Fixpoint starts_with (p s : list N) : bool :=
  match p, s with
  | [], _ => true
  | _ :: _, [] => false
  | a :: p', b :: s' => (a =? b)%N && starts_with p' s'
  end.

Fixpoint contains (s p : list N) : bool :=
  starts_with p s
  || match s with
     | [] => false
     | _ :: s' => contains s' p
     end.

Definition events_keywords : list string :=
  ["мероприятия"; "события"; "events"].

Definition events_welcome : string :=
  "🎉 Добро пожаловать в систему управления мероприятиями!" ++ nl ++
  nl ++
  "У нас вы можете:" ++ nl ++
  "1. 📅 Создавать новые мероприятия" ++ nl ++
  "2. 👥 Присоединяться к существующим" ++ nl ++
  "3. 🎯 Управлять своими мероприятиями" ++ nl ++
  nl ++
  "Доступные типы мероприятий:" ++ nl ++
  "• 🎯 Квизы и викторины" ++ nl ++
  "• 🎵 Музыкальные квизы" ++ nl ++
  "• 🎤 Караоке-вечера" ++ nl ++
  "• 🎉 Тематические вечеринки" ++ nl ++
  nl ++
  "Для начала работы нажмите на кнопку '📅 События' в меню".

(** [handle_user_message(message, state)] down to its branch on the
    sender being the administrator: [true] when the handler has returned
    by then, [false] when it goes on into that branch and the one after
    it, which store and forward the text and are left out here. *)
Definition handle_user_message_head (env : Env) (message : Message)
  : M bool :=
  user ← get_or_create_user (from_user message);
  try_except
    (match text message with
     | None => raise TypeError
     | Some t =>
         if existsb (λ keyword,
                       contains (lower (code_points t)) (code_points keyword))
                    events_keywords
         then answer message events_welcome;; mret true
         else if negb (registration_complete user)
                 && bool_decide (tg_id (from_user message) ≠ ADMIN_ID env)
         then
           answer message
             (get_text env "registration_required" (language user));;
           mret true
         else mret false
     end)
    (λ _,
       answer message (get_text env "error_occurred" (language user));;
       mret true).

(** ** More vocabulary *)

(** The world after one more text was sent to a chat. *)
Definition sent (chat : Z) (t : string) (w : World) : World :=
  mkWorld (db w) (storage w) (outbox w ++ [(chat, t)]).

(** The language a handler answers in: the one stored in the sender's
    session data, [en] when there is none. *)
Definition session_language (key : Z) (w : World) : string :=
  language_of (fsm_data (fsm_record key w)).

(** The updates of a registration in which the country and the about
    steps are answered with the given texts ([/skip] among them). *)
Definition registration_run_answers (u : TelegramUser)
    (choice name phone country_text about_text : string) : list Update :=
  [ MessageUpdate (text_message u "/start");
    CallbackUpdate (mkCallbackQuery u ("lang_" ++ choice));
    MessageUpdate (text_message u name);
    MessageUpdate (contact_message u phone);
    MessageUpdate (text_message u country_text);
    MessageUpdate (text_message u about_text) ].


(** What an optional step stores for a text: nothing for [/skip]. *)
Definition answer_of (t : string) : option string :=
  if bool_decide (t = "/skip") then None else Some t.

(** What a query returned, empty when it raised. *)
Definition returned (o : outcome (list Event)) : list Event :=
  match o with
  | Return r _ => r
  | Raise _ _ => []
  end.

(** An event the reminder sweep takes at the time [now]. *)
Definition due (now : Z) (e : Event) : Prop :=
  (now ≤ event_date e ∧ event_date e ≤ now + one_day)
  ∧ notification_sent e = false
  ∧ is_active e = true.

#[global] Instance due_dec now e : Decision (due now e).
Proof. unfold due. apply _. Defined.

(** The callback data a markup carries, row by row. *)
Definition callbacks_of (markup : InlineKeyboardMarkup) : list string :=
  omap callback_data (mjoin markup).

(** The handler each button of a markup reaches, [None] for a button whose
    data no filter accepts. *)
Definition handlers_of (markup : InlineKeyboardMarkup)
  : list (option RegisteredCallback) :=
  dispatch_callback <$> callbacks_of markup.

(** The text of a filter: what the data equals or begins with. *)
Definition stem (f : DataFilter) : string :=
  match f with
  | F_data_eq s | F_data_startswith s => s
  end.

(** No filter of the table can accept what an earlier one accepts:
    neither text begins with the other. *)
Fixpoint apart (table : list (RegisteredCallback * DataFilter)) : bool :=
  match table with
  | [] => true
  | (_, f) :: rest =>
      forallb (λ e, negb (String.prefix (stem f) (stem (snd e)))
                    && negb (String.prefix (stem (snd e)) (stem f))) rest
      && apart rest
  end.

(** The route of [route_callback] an entry of the table stands for. *)
Definition callback_handler_of (h : option RegisteredCallback)
  : CallbackHandler :=
  match h with
  | Some C_create_broadcast => H_create_broadcast
  | Some C_process_broadcast => H_process_broadcast
  | Some C_list_chats => H_list_chats
  | Some C_show_chat_history => H_show_chat_history
  | Some C_process_language_selection => H_process_language_selection
  | _ => H_other_callback
  end.

(** The session waits for an answer of the registration dialogue that is
    given as a text. *)
Definition registration_pending (st : option State) : bool :=
  in_state st RegistrationStates_waiting_for_name
  || in_state st RegistrationStates_waiting_for_phone
  || in_state st RegistrationStates_waiting_for_country
  || in_state st RegistrationStates_waiting_for_about.

(** ** More sample data *)

(** Carol, the user with primary key 5 who holds a seat in the sample
    events. *)
Definition carol : TelegramUser := mkTelegramUser 300 (Some "carol") "Carol" None.

Definition carol_row : User :=
  mkUser 5 300 (Some "carol") "Carol" None (Some "+300") (Some "Carol")
    (Some "Chile") "ru" (Some "hi") true.

(** A gateway that issues an intent for every positive amount, a clock
    text and a price text that show their arguments. *)
Definition demo_out : Outside :=
  mkOutside
    (λ amount currency event_id user,
       if 0 <? amount
       then Some ("pi_" ++ pretty event_id ++ "_" ++ pretty user,
                  "secret_" ++ pretty event_id)
       else None)
    (λ date, pretty date)
    (λ amount currency, pretty amount ++ " " ++ currency).


(** The sample event with a price of 49.00. *)
Definition paid_event (ps : list Z) : Event :=
  mkEvent 1 "Quiz night" "General knowledge" "Cafe" (5 * one_day) (Some 2)
    (Some 4900) "quiz" (Some "easy") None None None None 1 ps true false.

(** Alice created event 1; Carol sits in it; both have rows. *)
Definition club_world (event : Event) : World :=
  mkWorld (mkDB (<[300 := carol_row]> {[100 := alice_row]}) [event] []) ∅ [].

(** The row Bob gets on first contact in a world that holds Alice and
    Carol, and a world with one more row. *)
Definition bob_row : User :=
  mkUser 6 200 (Some "bob") "Bob" None None None None "en" None false.

Definition with_user (row : User) (w : World) : World :=
  set_db (set_users (<[telegram_id row := row]> (users (db w))) (db w)) w.

(** * Properties *)

(** ** The roster of one event *)

Section Roster.

Implicit Types (event : Event) (user : Z) (N : Z).

Lemma len_app_one (l : list Z) (x : Z) : len (l ++ [x]) = len l + 1.
Proof. unfold len. rewrite length_app. simpl. lia. Qed.

Lemma list_remove_length (x : Z) (l : list Z) :
  (length (list_remove x l) ≤ length l)%nat.
Proof.
  induction l as [|y l IH]; simpl; [lia|].
  destruct (decide (x = y)); simpl; lia.
Qed.

Lemma cap_reached_true event N :
  max_participants event = Some N → N ≠ 0 → N ≤ len (participants event) →
  cap_reached event = true.
Proof.
  intros HN Hnz Hle. unfold cap_reached. rewrite HN.
  apply andb_true_iff. split.
  - apply negb_true_iff, Z.eqb_neq, Hnz.
  - apply Z.geb_le. lia.
Qed.

Lemma cap_reached_false_room event N :
  max_participants event = Some N → N ≠ 0 → cap_reached event = false →
  len (participants event) < N.
Proof.
  unfold cap_reached. intros -> Hnz H.
  apply andb_false_iff in H as [H|H].
  - apply negb_false_iff, Z.eqb_eq in H. contradiction.
  - rewrite Z.geb_leb in H. apply Z.leb_gt in H. lia.
Qed.

Lemma has_room_not_reached event : has_room event → cap_reached event = false.
Proof.
  unfold has_room, cap_reached. destruct (max_participants event) as [n|]; [|done].
  intros H. apply andb_false_iff. right.
  rewrite Z.geb_leb. apply Z.leb_gt. lia.
Qed.

Lemma join_event_max event user :
  max_participants (snd (join_event event user)) = max_participants event.
Proof.
  unfold join_event. destruct (cap_reached event); [done|].
  destruct (decide (user ∈ participants event)); done.
Qed.

Lemma leave_event_max event user :
  max_participants (leave_event event user) = max_participants event.
Proof. unfold leave_event. destruct (decide _); done. Qed.

Lemma join_event_bound event user N :
  max_participants event = Some N → N ≠ 0 →
  len (participants event) ≤ N →
  len (participants (snd (join_event event user))) ≤ N.
Proof.
  intros HN Hnz Hle. unfold join_event.
  destruct (cap_reached event) eqn:Hcap; [done|].
  destruct (decide (user ∈ participants event)); [done|].
  simpl. rewrite len_app_one.
  pose proof (cap_reached_false_room _ _ HN Hnz Hcap). lia.
Qed.

Lemma leave_event_bound event user N :
  len (participants event) ≤ N →
  len (participants (leave_event event user)) ≤ N.
Proof.
  intros Hle. unfold leave_event. destruct (decide _); [|done].
  simpl. pose proof (list_remove_length user (participants event)).
  unfold len in *. lia.
Qed.

Lemma run_ops_bound (ops : list roster_op) event N :
  max_participants event = Some N → N ≠ 0 →
  len (participants event) ≤ N →
  len (participants (run_ops ops event)) ≤ N.
Proof.
  intros HN Hnz. revert event HN.
  induction ops as [|op ops IH]; intros event HN Hle; [done|].
  unfold run_ops. simpl. apply IH.
  - destruct op; simpl; [rewrite join_event_max | rewrite leave_event_max]; done.
  - destruct op; simpl; [by apply join_event_bound | by apply leave_event_bound].
Qed.

(** C1, as stated, fails for a cap of [0]: the guard of [join_event] takes
    [0] for "no cap", so the empty event with [max_participants = 0]
    admits a user. *)
Lemma cap_zero_admits :
  let event := sample_event (Some 0) [] in
  len (participants event) ≤ 0
  ∧ ¬ len (participants (run_ops [Join 7] event)) ≤ 0
  ∧ join_event event 7 ≠ (false, event).
Proof. vm_compute. split; [discriminate|]. split; [auto | discriminate]. Qed.

(** C1 (amended): for every event whose [max_participants] is set to a
    non-zero [N] and whose roster holds at most [N] users, every run of
    join and leave operations keeps the roster at most [N], and a join
    attempted when [N] (or more) participants are present returns Full and
    leaves the event as it was. *)
Theorem roster_within_cap event N :
  max_participants event = Some N → N ≠ 0 →
  (∀ ops, len (participants event) ≤ N →
          len (participants (run_ops ops event)) ≤ N)
  ∧ (∀ user, N ≤ len (participants event) →
             join_event event user = (false, event)).
Proof.
  intros HN Hnz. split.
  - intros ops Hle. by apply run_ops_bound.
  - intros user Hle. unfold join_event.
    by rewrite (cap_reached_true _ _ HN Hnz Hle).
Qed.

Lemma roster_within_cap_witness :
  len (participants
         (run_ops [Join 10; Join 20; Leave 10; Join 20]
                  (sample_event (Some 1) []))) ≤ 1
  ∧ join_event (sample_event (Some 1) [10]) 20
    = (false, sample_event (Some 1) [10]).
Proof.
  split.
  - apply (roster_within_cap (sample_event (Some 1) []) 1);
      [reflexivity | lia | vm_compute; discriminate].
  - apply (roster_within_cap (sample_event (Some 1) [10]) 1);
      [reflexivity | lia | vm_compute; discriminate].
Defined.

(** The scenario of a one-seat event: A joins, B is turned away, A leaves,
    B joins. *)
Example one_seat_scenario :
  let e0 := sample_event (Some 1) [] in
  let '(r1, e1) := join_event e0 10 in
  let '(r2, e2) := join_event e1 20 in
  let e3 := leave_event e2 10 in
  let '(r4, e4) := join_event e3 20 in
  (r1, participants e1) = (true, [10])
  ∧ (r2, participants e2) = (false, [10])
  ∧ participants e3 = []
  ∧ (r4, participants e4) = (true, [20]).
Proof. vm_compute. repeat split. Qed.

Lemma join_event_member event user :
  cap_reached event = false →
  user ∈ participants (snd (join_event event user)).
Proof.
  intros Hcap. unfold join_event. rewrite Hcap.
  destruct (decide (user ∈ participants event)); simpl; [done|].
  apply elem_of_app. right. by apply list_elem_of_singleton.
Qed.

Lemma join_event_grows event user :
  len (participants event) ≤ len (participants (snd (join_event event user))).
Proof.
  unfold join_event. destruct (cap_reached event); [done|].
  destruct (decide _); simpl; [done|]. rewrite len_app_one. lia.
Qed.

(** The second of two joins by the same user never changes the event. *)
Lemma join_event_again event user :
  snd (join_event (snd (join_event event user)) user)
  = snd (join_event event user).
Proof.
  unfold join_event at 2 3.
  destruct (cap_reached event) eqn:Hcap; simpl.
  - unfold join_event. by rewrite Hcap.
  - destruct (decide (user ∈ participants event)) as [Hin|Hin]; simpl.
    + unfold join_event. rewrite Hcap. by destruct (decide _).
    + unfold join_event.
      destruct (cap_reached (set_participants _ event)); [done|].
      destruct (decide _) as [|Hn]; [done|]. exfalso. apply Hn. simpl.
      apply elem_of_app. right. by apply list_elem_of_singleton.
Qed.

(** C6, as stated, fails when the first join takes the last seat: the
    capacity guard of [join_event] comes before its membership test, so the
    second join of the same user is answered Full. *)
Lemma second_join_full :
  let event := sample_event (Some 1) [] in
  fst (join_event event 7) = true
  ∧ fst (join_event (snd (join_event event 7)) 7) = false.
Proof. vm_compute. split; reflexivity. Qed.

(** C6 (amended): joining twice with the same user leaves the event,
    hence its participant set, unchanged after the second join; both joins
    return Admitted when the event has no cap (none, or [0]) or still has
    a free seat after the first join; when the first join takes the last
    seat it returns Admitted and the second returns Full. *)
Theorem join_twice event user :
  let first := join_event event user in
  let second := join_event (snd first) user in
  snd second = snd first
  ∧ (max_participants event = None ∨ max_participants event = Some 0 →
     fst first = true ∧ fst second = true)
  ∧ (has_room (snd first) → fst first = true ∧ fst second = true)
  ∧ (∀ N, max_participants event = Some N → N ≠ 0 →
          len (participants event) < N →
          len (participants (snd first)) = N →
          fst first = true ∧ fst second = false).
Proof.
  cbv zeta. split; [apply join_event_again|]. split; [|split].
  - intros Hcap.
    assert (Hc : ∀ e, max_participants e = max_participants event →
                      cap_reached e = false).
    { intros e He. unfold cap_reached. rewrite He.
      destruct Hcap as [-> | ->]; done. }
    assert (H1 : fst (join_event event user) = true).
    { unfold join_event. rewrite (Hc event eq_refl).
      by destruct (decide _). }
    split; [done|].
    unfold join_event at 1. rewrite (Hc _ (join_event_max event user)).
    by destruct (decide _).
  - intros Hroom1.
    assert (Hroom : has_room event).
    { revert Hroom1. unfold has_room. rewrite join_event_max.
      destruct (max_participants event); [|done].
      pose proof (join_event_grows event user). lia. }
    apply has_room_not_reached in Hroom1, Hroom.
    split.
    + unfold join_event. rewrite Hroom. by destruct (decide _).
    + unfold join_event at 1. rewrite Hroom1. by destruct (decide _).
  - intros N HN Hnz Hlt Hfull.
    assert (Hcap : cap_reached event = false).
    { apply has_room_not_reached. unfold has_room. by rewrite HN. }
    split.
    + unfold join_event. rewrite Hcap. by destruct (decide _).
    + unfold join_event at 1.
      rewrite (cap_reached_true _ N); [done | | done | lia].
      by rewrite join_event_max.
Qed.

Lemma join_twice_witness :
  let event := sample_event (Some 2) [] in
  fst (join_event event 7) = true
  ∧ fst (join_event (snd (join_event event 7)) 7) = true.
Proof.
  apply (join_twice (sample_event (Some 2) []) 7); vm_compute; reflexivity.
Defined.

(** C10: [join_event] does not look at [is_active]: a cancelled event that
    has room admits any user, adds the user to its participants and stays
    cancelled; [cancel_event] yields such an event and leaves the roster
    and the cap as they were. *)
Theorem join_cancelled_event event user :
  is_active event = false → has_room event →
  fst (join_event event user) = true
  ∧ user ∈ participants (snd (join_event event user))
  ∧ is_active (snd (join_event event user)) = false.
Proof.
  intros Hoff Hroom. apply has_room_not_reached in Hroom as Hcap.
  split; [|split].
  - unfold join_event. rewrite Hcap. by destruct (decide _).
  - by apply join_event_member.
  - unfold join_event. rewrite Hcap. by destruct (decide _).
Qed.

Lemma cancel_event_inactive event :
  is_active (cancel_event event) = false
  ∧ participants (cancel_event event) = participants event
  ∧ max_participants (cancel_event event) = max_participants event.
Proof. done. Qed.

Lemma join_cancelled_event_witness :
  let event := cancel_event (sample_event (Some 2) [10]) in
  fst (join_event event 20) = true
  ∧ 20 ∈ participants (snd (join_event event 20))
  ∧ is_active (snd (join_event event 20)) = false.
Proof.
  apply (join_cancelled_event (cancel_event (sample_event (Some 2) [10])) 20).
  - reflexivity.
  - vm_compute. reflexivity.
Defined.

End Roster.

(** ** The time-window queries *)

Section Queries.

#[local] Instance date_asc_total : Total date_asc.
Proof. intros a b. unfold date_asc. lia. Qed.
#[local] Instance date_asc_trans : Transitive date_asc.
Proof. intros a b c. unfold date_asc. lia. Qed.
#[local] Instance date_desc_total : Total date_desc.
Proof. intros a b. unfold date_desc. lia. Qed.
#[local] Instance date_desc_trans : Transitive date_desc.
Proof. intros a b c. unfold date_desc. lia. Qed.

(** C7: [get_upcoming_events] returns the stored events that are active
    and dated strictly after [now], each as often as it is stored, in
    ascending order of date; [get_past_events] returns those that are
    active and dated strictly before [now], in descending order of date;
    both leave the world as it was. *)
Theorem upcoming_and_past (now : Z) (w : World) :
  (∃ r, get_upcoming_events now w = Return r w
        ∧ r ≡ₚ filter (λ e, event_date e > now ∧ is_active e = true)
                      (events (db w))
        ∧ (∀ e, e ∈ r ↔
                e ∈ events (db w) ∧ is_active e = true ∧ now < event_date e)
        ∧ StronglySorted (λ a b, event_date a ≤ event_date b) r)
  ∧ (∃ r, get_past_events now w = Return r w
          ∧ r ≡ₚ filter (λ e, event_date e < now ∧ is_active e = true)
                        (events (db w))
          ∧ (∀ e, e ∈ r ↔
                  e ∈ events (db w) ∧ is_active e = true ∧ event_date e < now)
          ∧ StronglySorted (λ a b, event_date b ≤ event_date a) r).
Proof.
  split.
  - eexists. split; [reflexivity|]. split; [apply merge_sort_Permutation|].
    split.
    + intros e. rewrite merge_sort_Permutation, list_elem_of_filter.
      intuition lia.
    + apply (StronglySorted_merge_sort date_asc).
  - eexists. split; [reflexivity|]. split; [apply merge_sort_Permutation|].
    split.
    + intros e. rewrite merge_sort_Permutation, list_elem_of_filter.
      intuition lia.
    + apply (StronglySorted_merge_sort date_desc).
Qed.

Example upcoming_and_past_sample :
  let w := mkWorld (mkDB ∅ [dated_event 1 30 true false;
                            dated_event 2 10 true false;
                            dated_event 3 20 true false;
                            dated_event 4 40 false false;
                            dated_event 5 50 true false] []) ∅ [] in
  returned_ids (get_upcoming_events 20 w) = Some [1; 5]
  ∧ returned_ids (get_past_events 35 w) = Some [1; 3; 2].
Proof. vm_compute. split; reflexivity. Qed.

(** C8, as stated, fails at the upper bound: the query is written with
    [BETWEEN], which takes an event dated exactly one day from [now]. *)
Lemma notification_window_closed :
  let now := 1000 in
  let e := dated_event 1 (now + one_day) true false in
  let w := mkWorld (mkDB ∅ [e] []) ∅ [] in
  get_events_for_notification now w = Return [e] w
  ∧ ¬ event_date e < now + one_day.
Proof. vm_compute. split; [reflexivity | discriminate]. Qed.

(** C8 (amended): [get_events_for_notification] returns, in stored order
    and each as often as it is stored, the events that are active, not yet
    notified and dated in the closed interval from [now] to [now] plus one
    day; it leaves the world as it was. *)
Theorem notification_window (now : Z) (w : World) :
  ∃ r, get_events_for_notification now w = Return r w
       ∧ r `sublist_of` events (db w)
       ∧ (∀ e, e ∈ r ↔
               e ∈ events (db w)
               ∧ is_active e = true ∧ notification_sent e = false
               ∧ now ≤ event_date e ≤ now + one_day).
Proof.
  eexists. split; [reflexivity|]. split; [apply sublist_filter|].
  intros e. rewrite list_elem_of_filter. intuition lia.
Qed.

Example notification_window_sample :
  let w := mkWorld (mkDB ∅ [dated_event 1 999 true false;
                            dated_event 2 1000 true false;
                            dated_event 3 (1000 + one_day) true false;
                            dated_event 4 (1001 + one_day) true false;
                            dated_event 5 2000 true true;
                            dated_event 6 2000 false false] []) ∅ [] in
  returned_ids (get_events_for_notification 1000 w)
  = Some [2; 3].
Proof. vm_compute. reflexivity. Qed.

End Queries.

(** ** The payment webhook *)

Section Webhook.

Implicit Types (env : Env) (message : Message) (w : World)
  (bound : list string).

(** A module that does not bind [verify_webhook_signature] stops at the
    call with [NameError]; the handler's [except Exception] swallows it. *)
Lemma stripe_webhook_in_unbound bound env message w :
  "verify_webhook_signature" ∉ bound →
  stripe_webhook_in bound env message w = Return tt w.
Proof.
  intros Hnot. unfold stripe_webhook_in, try_except.
  destruct (web_app_data message) as [wad|]; [|done].
  unfold global_name, mbind, M_bind. by rewrite decide_False.
Qed.

(** [verify_webhook_signature] is not among the globals of bot.py, so its
    handler changes nothing, whatever it is sent. *)
Lemma stripe_webhook_inert env message w :
  stripe_webhook env message w = Return tt w.
Proof.
  apply stripe_webhook_in_unbound.
  apply (bool_decide_eq_false_1 _). vm_compute. reflexivity.
Qed.

(** C2: a webhook call whose payload fails signature verification returns
    without raising and leaves the whole world as it was: no payment
    changes status, no event gains a participant, nothing is sent.  This
    holds for bot.py's own globals and for any other set of bound names. *)
Theorem bad_signature_noop bound env message wad w :
  web_app_data message = Some wad →
  verify_webhook_signature env (wad_data wad) (button_text wad) = false →
  stripe_webhook env message w = Return tt w
  ∧ stripe_webhook_in bound env message w = Return tt w.
Proof.
  intros Hwad Hsig. split; [apply stripe_webhook_inert|].
  unfold stripe_webhook_in, try_except. rewrite Hwad.
  unfold global_name, mbind, M_bind.
  destruct (decide _); simpl; [|done]. by rewrite Hsig.
Qed.

Lemma bad_signature_noop_witness :
  let message := webhook_message "succeeded pi_1" "forged" in
  stripe_webhook demo_env message demo_world = Return tt demo_world
  ∧ stripe_webhook_in repaired_globals demo_env message demo_world
    = Return tt demo_world.
Proof.
  apply (bad_signature_noop repaired_globals demo_env
           (webhook_message "succeeded pi_1" "forged")
           (mkWebAppData "succeeded pi_1" "forged") demo_world);
    reflexivity.
Defined.

(** C3 fails on the code.  A correctly signed [payment_intent.succeeded]
    envelope for Alice's pending payment leaves the payment pending and
    Alice out of the event, which has a free seat: the handler calls
    [verify_webhook_signature], a name bot.py never imports. *)
Lemma verified_success_dropped :
  let message := webhook_message "succeeded pi_1" "whsec_demo" in
  let w' := world_of (stripe_webhook demo_env message demo_world) in
  verify_webhook_signature demo_env "succeeded pi_1" "whsec_demo" = true
  ∧ reports_succeeded demo_env message = true
  ∧ status <$> payments (db w') = ["pending"]
  ∧ participants <$> events (db w') = [[5]].
Proof. vm_compute. repeat split. Qed.

(** With the missing name bound, the same call confirms the payment and
    admits Alice to the last seat. *)
Lemma verified_success_with_import :
  let message := webhook_message "succeeded pi_1" "whsec_demo" in
  let w' := world_of (stripe_webhook_in repaired_globals demo_env message
                        demo_world) in
  status <$> payments (db w') = ["succeeded"]
  ∧ participants <$> events (db w') = [[5; 1]]
  ∧ outbox w' = [(100, "payment_success")].
Proof. vm_compute. repeat split. Qed.

Lemma set_status_same (p : Payment) (s : string) :
  status p = s → set_status s p = p.
Proof. destruct p. simpl. by intros ->. Qed.

Lemma update_payment_status_payments id w :
  payments (db (world_of (update_payment_status id "succeeded" w)))
  = payments (db w)
  ∨ payments (db (world_of (update_payment_status id "succeeded" w)))
    = mark_succeeded id (payments (db w)).
Proof.
  unfold update_payment_status.
  destruct (filter _ _) as [|p [|p' l]]; simpl; auto.
Qed.

(** Every path through the handler, one case per branch taken. *)
Ltac webhook_cases :=
  unfold stripe_webhook_in, try_except, global_name, getitem, bound_text,
    session_join_event, send_message, modify_db, modify, get_world, raise,
    mbind, M_bind, mret, M_ret;
  repeat (case_match; simpl in *; simplify_eq; auto).

Lemma stripe_webhook_in_payments bound env message w :
  let w' := world_of (stripe_webhook_in bound env message w) in
  payments (db w') = payments (db w)
  ∨ ∃ id, payments (db w') = mark_succeeded id (payments (db w)).
Proof.
  webhook_cases.
  all: match goal with
       | H : update_payment_status ?id _ ?w0 = _ |- _ =>
           let Hp := fresh in
           pose proof (update_payment_status_payments id w0) as Hp;
           rewrite H in Hp; simpl in Hp; destruct Hp; eauto
       end.
Qed.

(** C4: a payment whose status is [succeeded] or [failed] keeps it through
    every webhook call of bot.py, duplicate deliveries included.  However
    the handler's globals are bound, a payment that is [succeeded] keeps
    its whole row through every call, and a call leaves a row as it was or
    marks it [succeeded]: [succeeded] is the only status the handler
    writes, so [failed] is never entered and [succeeded] never left. *)
Theorem terminal_status_kept bound env message w (i : nat) (p : Payment) :
  payments (db w) !! i = Some p →
  (status p = "succeeded" ∨ status p = "failed" →
   payments (db (world_of (stripe_webhook env message w))) !! i = Some p)
  ∧ (status p = "succeeded" →
     payments (db (world_of (stripe_webhook_in bound env message w))) !! i
     = Some p)
  ∧ (payments (db (world_of (stripe_webhook_in bound env message w))) !! i
     = Some p
     ∨ payments (db (world_of (stripe_webhook_in bound env message w))) !! i
       = Some (set_status "succeeded" p)).
Proof.
  intros Hp. split; [|split].
  - intros _. by rewrite stripe_webhook_inert.
  - intros Hs.
    destruct (stripe_webhook_in_payments bound env message w) as [->|[id ->]];
      [done|].
    unfold mark_succeeded. rewrite list_lookup_fmap, Hp. simpl.
    destruct (decide _); [|done]. by rewrite set_status_same.
  - destruct (stripe_webhook_in_payments bound env message w) as [->|[id ->]];
      [by left|].
    unfold mark_succeeded. rewrite list_lookup_fmap, Hp. simpl.
    destruct (decide _); auto.
Qed.

Lemma terminal_status_kept_witness :
  let message := webhook_message "succeeded pi_1" "whsec_demo" in
  let p := mkPayment 1 "pi_1" 4900 "usd" "succeeded" 1 1 in
  payments (db (world_of (stripe_webhook demo_env message paid_world)))
    !! 0%nat = Some p
  ∧ payments (db (world_of (stripe_webhook_in repaired_globals demo_env
                              message paid_world))) !! 0%nat = Some p.
Proof.
  pose proof (terminal_status_kept repaired_globals demo_env
                (webhook_message "succeeded pi_1" "whsec_demo") paid_world
                0%nat (mkPayment 1 "pi_1" 4900 "usd" "succeeded" 1 1)
                eq_refl) as (H1 & H2 & _).
  split; [apply H1; left; reflexivity | apply H2; reflexivity].
Defined.

(** The first delivery under repaired globals leads to [paid_world]. *)
Example first_delivery :
  world_of (stripe_webhook_in repaired_globals demo_env
              (webhook_message "succeeded pi_1" "whsec_demo") demo_world)
  = paid_world.
Proof. vm_compute. reflexivity. Qed.

(** [update_payment_status] itself has no such guard: called with another
    status it overwrites a terminal one. *)
Example update_payment_status_overwrites :
  status <$> payments (db (world_of
                             (update_payment_status "pi_1" "failed"
                                                    paid_world)))
  = ["failed"].
Proof. vm_compute. reflexivity. Qed.

(** C5, as stated, fails on the code: a correctly signed
    [payment_intent.payment_failed] envelope for Alice's pending payment
    leaves the payment pending, under bot.py's globals and under the
    repaired ones; no branch of the handler writes [failed]. *)
Lemma failed_report_not_recorded :
  let message := webhook_message "payment_failed pi_1" "whsec_demo" in
  verify_webhook_signature demo_env "payment_failed pi_1" "whsec_demo" = true
  ∧ reports_succeeded demo_env message = false
  ∧ status <$> payments (db (world_of (stripe_webhook demo_env message
                                         demo_world))) = ["pending"]
  ∧ status <$> payments (db (world_of (stripe_webhook_in repaired_globals
                                         demo_env message demo_world)))
    = ["pending"].
Proof. vm_compute. repeat split. Qed.

(** C5 (amended): a webhook call whose payload reports anything but
    [payment_intent.succeeded] returns without raising and leaves the whole
    world as it was: every payment keeps its status, a pending one stays
    pending, and no event gains a participant.  This holds for bot.py's own
    globals and for any other set of bound names. *)
Theorem other_report_noop bound env message w :
  reports_succeeded env message = false →
  stripe_webhook env message w = Return tt w
  ∧ stripe_webhook_in bound env message w = Return tt w.
Proof.
  intros Hrep. split; [apply stripe_webhook_inert|].
  revert Hrep. unfold reports_succeeded, reported_type.
  webhook_cases; intros; congruence.
Qed.

Lemma other_report_noop_witness :
  let message := webhook_message "payment_failed pi_1" "whsec_demo" in
  stripe_webhook demo_env message demo_world = Return tt demo_world
  ∧ stripe_webhook_in repaired_globals demo_env message demo_world
    = Return tt demo_world.
Proof.
  apply (other_report_noop repaired_globals demo_env
           (webhook_message "payment_failed pi_1" "whsec_demo") demo_world).
  vm_compute. reflexivity.
Defined.


Lemma event_by_id_store (id : Z) (e e' : Event) (d : DB) :
  event_by_id id d = Some e → event_id e' = id →
  event_by_id id (store_event e' d) = Some e'.
Proof.
  unfold event_by_id, store_event. simpl. intros H Hid.
  destruct (list_find _ (events d)) as [[i x]|] eqn:Hf; [|done].
  apply list_find_Some in Hf as (Hi & Hx & Hbefore).
  set (f := λ e0 : Event,
              if decide (event_id e0 = event_id e') then e' else e0).
  assert (list_find (λ e0, event_id e0 = id) (f <$> events d)
          = Some (i, e')) as ->; [|done].
  apply list_find_Some. split_and!.
  - rewrite list_lookup_fmap, Hi. simpl. unfold f.
    by rewrite decide_True by congruence.
  - done.
  - intros j y. rewrite list_lookup_fmap.
    destruct (events d !! j) as [z|] eqn:Hz; [|done]. simpl.
    intros [= <-] Hlt. specialize (Hbefore j z Hz Hlt). unfold f.
    destruct (decide _); [congruence | done].
Qed.

Lemma event_by_id_id (id : Z) (e : Event) (d : DB) :
  event_by_id id d = Some e → event_id e = id.
Proof.
  unfold event_by_id. destruct (list_find _ _) as [[n y]|] eqn:H; [|done].
  simpl. intros [= <-]. by apply list_find_Some in H as (_ & ? & _).
Qed.

Lemma join_event_id (event : Event) (user : Z) :
  event_id (snd (join_event event user)) = event_id event.
Proof.
  unfold join_event. destruct (cap_reached event); [done|].
  by destruct (decide _).
Qed.

Lemma update_payment_status_one id p w :
  filter (λ q, stripe_payment_id q = id) (payments (db w)) = [p] →
  update_payment_status id "succeeded" w
  = Return (Some (set_status "succeeded" p))
           (set_db (set_payments (mark_succeeded id (payments (db w))) (db w))
                   w).
Proof. intros H. unfold update_payment_status. by rewrite H. Qed.

(** What the handler does once the name it calls is bound: for a verified
    [payment_intent.succeeded] envelope whose intent id names exactly one
    payment row, it marks that row succeeded and admits the payment's user
    to the payment's event, when the event has room. *)
Lemma verified_success_admits bound env message wad fields data object id p
    event user w :
  "verify_webhook_signature" ∈ bound →
  web_app_data message = Some wad →
  verify_webhook_signature env (wad_data wad) (button_text wad) = true →
  json_loads env (wad_data wad) = Some (JObj fields) →
  fields !! "type" = Some (JStr "payment_intent.succeeded") →
  fields !! "data" = Some (JObj data) →
  data !! "object" = Some (JObj object) →
  object !! "id" = Some (JStr id) →
  filter (λ q, stripe_payment_id q = id) (payments (db w)) = [p] →
  event_by_id (payment_event_id p) (db w) = Some event →
  user_by_id (payment_user_id p) (db w) = Some user →
  has_room event →
  let w' := world_of (stripe_webhook_in bound env message w) in
  payments (db w') = mark_succeeded id (payments (db w))
  ∧ ∃ event', event_by_id (payment_event_id p) (db w') = Some event'
              ∧ user_id user ∈ participants event'.
Proof.
  intros Hb Hwad Hsig Hjson Htype Hdata Hobj Hid Hrow Hev Hus Hroom.
  unfold stripe_webhook_in, try_except. rewrite Hwad.
  unfold global_name. rewrite decide_True by done.
  unfold mbind, M_bind, mret, M_ret. simpl. rewrite Hsig, Hjson. simpl.
  rewrite Htype. simpl. rewrite Hdata. simpl. rewrite Hobj. simpl.
  rewrite Hid. simpl. rewrite (update_payment_status_one _ _ _ Hrow).
  simpl.
  assert (He : event_by_id (payment_event_id p)
                 (set_payments (mark_succeeded id (payments (db w))) (db w))
               = Some event) by exact Hev.
  assert (Hu : user_by_id (payment_user_id p)
                 (set_payments (mark_succeeded id (payments (db w))) (db w))
               = Some user) by exact Hus.
  rewrite He, Hu. unfold session_join_event.
  pose proof (join_event_member event (user_id user)
                (has_room_not_reached _ Hroom)) as Hin.
  pose proof (join_event_id event (user_id user)) as Hsame.
  destruct (join_event event (user_id user)) as [admitted event'].
  simpl in *. split; [done|]. exists event'. split; [|done].
  apply (event_by_id_store _ event); [done|].
  rewrite Hsame. by apply event_by_id_id in Hev.
Qed.
End Webhook.

(** ** The registration dialogue *)

Section Registration.

Context (env : Env) (u : TelegramUser).

Ltac run_m :=
  unfold try_except, answer, send_message, commit_user, set_state,
    update_data, clear, get_data, get_state, modify_db, modify, get_world,
    raise, mbind, M_bind, mret, M_ret; simpl.

Ltac stands_tac :=
  unfold stands, fsm_record; simpl;
  repeat match goal with
         | H : telegram_id _ = _ |- _ => rewrite H
         end;
  rewrite ?lookup_insert_eq; simpl; auto.

Lemma get_or_create_user_found w row :
  users (db w) !! tg_id u = Some row →
  get_or_create_user u w = Return row w.
Proof. intros H. unfold get_or_create_user. by rewrite H. Qed.

Lemma cmd_start_enters (m : Message) w :
  from_user m = u → unregistered (db w) u →
  ∃ w' row,
    cmd_start env m w = Return tt w'
    ∧ stands u w' row (Some RegistrationStates_waiting_for_language).
Proof.
  intros Hu Hnew. unfold cmd_start. rewrite Hu.
  unfold unregistered in Hnew. unfold get_or_create_user.
  destruct (users (db w) !! tg_id u) as [row|] eqn:Hrow.
  - destruct Hnew as [Htid Hreg]. run_m. rewrite Hrow. simpl.
    rewrite Hreg. simpl.
    eexists _, row. split; [reflexivity|]. stands_tac.
  - run_m. rewrite Hrow. simpl.
    eexists _, _. split; [reflexivity|]. stands_tac.
Qed.

Lemma split_cons (sep : ascii) (s : string) :
  ∃ part parts, split sep s = part :: parts.
Proof.
  induction s as [|c s IH]; simpl; [by eauto|].
  destruct (decide (c = sep)); [by eauto|].
  destruct IH as (part & parts & ->). eauto.
Qed.

Lemma chosen_language (choice : string) :
  ∃ l, split "_" ("lang_" ++ choice) !! 1%nat = Some l.
Proof.
  destruct (split_cons "_" choice) as (part & parts & H).
  exists part. simpl. change ("" +:+ choice) with choice. by rewrite H.
Qed.

Lemma process_language_selection_step (c : CallbackQuery) l w row st :
  cb_from_user c = u → split "_" (cb_data c) !! 1%nat = Some l →
  stands u w row st →
  ∃ w',
    process_language_selection env c w = Return tt w'
    ∧ stands u w' (set_language l row)
        (Some RegistrationStates_waiting_for_name).
Proof.
  intros Hu Hl (Hrow & Htid & Hst). unfold process_language_selection.
  rewrite Hu, Hl.
  run_m. rewrite (get_or_create_user_found _ _ Hrow). simpl.
  eexists. split; [reflexivity|]. stands_tac.
Qed.

Lemma process_name_step (name : string) w row :
  stands u w row (Some RegistrationStates_waiting_for_name) →
  2 ≤ py_len name →
  ∃ w',
    process_name env (text_message u name) w = Return tt w'
    ∧ stands u w' (set_real_name (Some name) row)
        (Some RegistrationStates_waiting_for_phone).
Proof.
  intros (Hrow & Htid & Hst) Hlen. unfold process_name.
  run_m. rewrite (get_or_create_user_found _ _ Hrow). simpl.
  assert (Hne : name ≠ "") by (intros ->; vm_compute in Hlen; done).
  rewrite bool_decide_eq_false_2 by done.
  assert ((py_len name <? 2) = false) as -> by (apply Z.ltb_ge; lia).
  simpl. eexists. split; [reflexivity|]. stands_tac.
Qed.

Lemma process_phone_step (phone : string) w row :
  stands u w row (Some RegistrationStates_waiting_for_phone) →
  phone ≠ "" →
  ∃ w',
    process_phone env (contact_message u phone) w = Return tt w'
    ∧ stands u w' (set_phone_number (Some phone) row)
        (Some RegistrationStates_waiting_for_country).
Proof.
  intros (Hrow & Htid & Hst) Hne. unfold process_phone.
  run_m. rewrite (get_or_create_user_found _ _ Hrow). simpl.
  destruct phone as [|c n]; [done|]. simpl.
  eexists. split; [reflexivity|]. stands_tac.
Qed.

Lemma process_country_skip w row :
  stands u w row (Some RegistrationStates_waiting_for_country) →
  ∃ w',
    process_country env (text_message u "/skip") w = Return tt w'
    ∧ stands u w' (set_country None row)
        (Some RegistrationStates_waiting_for_about).
Proof.
  intros (Hrow & Htid & Hst). unfold process_country.
  run_m. rewrite (get_or_create_user_found _ _ Hrow). simpl.
  eexists. split; [reflexivity|]. stands_tac.
Qed.

Lemma process_about_skip w row :
  stands u w row (Some RegistrationStates_waiting_for_about) →
  ∃ w',
    process_about env (text_message u "/skip") w = Return tt w'
    ∧ stands u w' (set_registration_complete true (set_about None row)) None
    ∧ storage w' !! tg_id u = Some (mkFSM None ∅).
Proof.
  intros (Hrow & Htid & Hst). unfold process_about, notify_admin.
  run_m. rewrite (get_or_create_user_found _ _ Hrow). simpl.
  destruct (decide (tg_id u ≠ ADMIN_ID env)); run_m;
    (eexists; split; [reflexivity|]; split; [stands_tac|]; simpl;
     by rewrite lookup_insert_eq).
Qed.

Lemma run_updates_cons (upd : Update) (us : list Update) w r w1 st rest w' :
  feed_update env upd w = Return r w1 →
  fsm_state (fsm_record (tg_id u) w1) = st →
  run_updates env (tg_id u) us w1 = Return rest w' →
  run_updates env (tg_id u) (upd :: us) w = Return ((r, st) :: rest) w'.
Proof.
  intros Hfeed Hst Hrest. simpl. unfold mbind, M_bind at 1.
  rewrite Hfeed. unfold M_bind at 1, get_state, get_world.
  unfold mbind, M_bind at 1. simpl.
  unfold M_bind. rewrite Hrest. unfold mret, M_ret. by rewrite Hst.
Qed.

(** A message from [u] goes to the handler its route names. *)
Lemma feed_message (m : Message) (h : MessageHandler) (run : M unit) w w1 st :
  from_user m = u →
  fsm_state (fsm_record (tg_id u) w) = st →
  route_message env st m = Some h →
  (h = H_cmd_start ∧ run = cmd_start env m
   ∨ h = H_process_name ∧ run = process_name env m
   ∨ h = H_process_phone ∧ run = process_phone env m
   ∨ h = H_process_country ∧ run = process_country env m
   ∨ h = H_process_about ∧ run = process_about env m) →
  run w = Return tt w1 →
  feed_update env (MessageUpdate m) w = Return Embedded w1.
Proof.
  intros Hu Hst Hroute Hh Hrun. unfold feed_update.
  unfold mbind, M_bind at 1, get_state, get_world. unfold mbind, M_bind at 1.
  unfold mret, M_ret. rewrite Hu, Hst, Hroute.
  destruct Hh as [[-> ->]|[[-> ->]|[[-> ->]|[[-> ->]|[-> ->]]]]];
    unfold M_bind; by rewrite Hrun.
Qed.

(** C9: for a user who has not completed a registration, whatever session
    the user had (none in particular), the run [/start], language button,
    name, shared contact, [/skip], [/skip] is handled by the registration
    handlers only and puts the session in the states
    [waiting_for_language], [waiting_for_name], [waiting_for_phone],
    [waiting_for_country], [waiting_for_about] in that order and then in no
    state; it ends with [registration_complete] set, [country] and [about]
    empty, the name and the phone stored, and the session cleared (no
    state, empty data).  A valid name is a text of two or more characters
    that reaches [process_name], that is, one no handler registered ahead
    of it ([/admin], [/import_meetupshare], [/start], [/help] and the
    [help] keyword) takes; a valid contact has a non-empty phone number. *)
Theorem registration_skip_skip (choice name phone : string) w :
  unregistered (db w) u →
  route_message env (Some RegistrationStates_waiting_for_name)
    (text_message u name) = Some H_process_name →
  2 ≤ py_len name →
  phone ≠ "" →
  ∃ w' row,
    run_updates env (tg_id u) (registration_run u choice name phone) w
    = Return [ (Embedded, Some RegistrationStates_waiting_for_language);
               (Embedded, Some RegistrationStates_waiting_for_name);
               (Embedded, Some RegistrationStates_waiting_for_phone);
               (Embedded, Some RegistrationStates_waiting_for_country);
               (Embedded, Some RegistrationStates_waiting_for_about);
               (Embedded, None) ] w'
    ∧ users (db w') !! tg_id u = Some row
    ∧ registration_complete row = true
    ∧ country row = None ∧ about row = None
    ∧ real_name row = Some name ∧ phone_number row = Some phone
    ∧ storage w' !! tg_id u = Some (mkFSM None ∅).
Proof.
  intros Hnew Hroute Hlen Hphone.
  destruct (cmd_start_enters (text_message u "/start") w eq_refl Hnew)
    as (w1 & row1 & E1 & S1).
  destruct (chosen_language choice) as [l Hl].
  destruct (process_language_selection_step
              (mkCallbackQuery u ("lang_" ++ choice)) l w1 row1 _
              eq_refl Hl S1) as (w2 & E2 & S2).
  destruct (process_name_step name w2 _ S2 Hlen) as (w3 & E3 & S3).
  destruct (process_phone_step phone w3 _ S3 Hphone) as (w4 & E4 & S4).
  destruct (process_country_skip w4 _ S4) as (w5 & E5 & S5).
  destruct (process_about_skip w5 _ S5) as (w6 & E6 & S6 & Hclear).
  exists w6. eexists. split; [|split; [apply S6|]].
  - unfold registration_run.
    eapply run_updates_cons; [|apply S1|].
    { eapply (feed_message _ H_cmd_start); [done|done| |by left|exact E1].
      reflexivity. }
    eapply run_updates_cons; [|apply S2|].
    { unfold feed_update.
      assert (route_callback (mkCallbackQuery u ("lang_" ++ choice))
              = H_process_language_selection) as ->
        by (destruct choice; vm_compute; reflexivity).
      unfold mbind, M_bind. by rewrite E2. }
    eapply run_updates_cons; [|apply S3|].
    { eapply (feed_message _ H_process_name);
        [done|apply S2|exact Hroute|by right; left|exact E3]. }
    eapply run_updates_cons; [|apply S4|].
    { eapply (feed_message _ H_process_phone);
        [done|apply S3|reflexivity|by right; right; left|exact E4]. }
    eapply run_updates_cons; [|apply S5|].
    { eapply (feed_message _ H_process_country);
        [done|apply S4|reflexivity|by right; right; right; left|exact E5]. }
    eapply run_updates_cons; [|apply S6|].
    { eapply (feed_message _ H_process_about);
        [done|apply S5|reflexivity|by right; right; right; right|exact E6]. }
    reflexivity.
  - done.
Qed.

End Registration.

Lemma registration_skip_skip_witness :
  ∃ w' row,
    run_updates demo_env (tg_id bob)
      (registration_run bob "ru" "Bob Marley" "+200") demo_world
    = Return [ (Embedded, Some RegistrationStates_waiting_for_language);
               (Embedded, Some RegistrationStates_waiting_for_name);
               (Embedded, Some RegistrationStates_waiting_for_phone);
               (Embedded, Some RegistrationStates_waiting_for_country);
               (Embedded, Some RegistrationStates_waiting_for_about);
               (Embedded, None) ] w'
    ∧ users (db w') !! tg_id bob = Some row
    ∧ registration_complete row = true
    ∧ country row = None ∧ about row = None
    ∧ real_name row = Some "Bob Marley" ∧ phone_number row = Some "+200"
    ∧ storage w' !! tg_id bob = Some (mkFSM None ∅).
Proof.
  apply (registration_skip_skip demo_env bob "ru" "Bob Marley" "+200"
           demo_world).
  - vm_compute. exact I.
  - vm_compute. reflexivity.
  - vm_compute. discriminate.
  - discriminate.
Defined.

(** The same run, evaluated: the row Bob ends with and what was sent. *)
Example registration_run_sample :
  let w' := world_of (run_updates demo_env (tg_id bob)
                        (registration_run bob "ru" "Bob Marley" "+200")
                        demo_world) in
  users (db w') !! 200
  = Some (mkUser 2 200 (Some "bob") "Bob" None (Some "+200")
            (Some "Bob Marley") None "ru" None true)
  ∧ fst <$> outbox w' = [200; 200; 200; 200; 200; 200; 200; 200; 999].
Proof. vm_compute. split; reflexivity. Qed.

(** The routing table also decides what a message with the text
    [/stripe/webhook] reaches: [handle_user_message], whose filter [F.text]
    is registered ahead of the filter of [stripe_webhook]. *)
Example webhook_text_route :
  route_message demo_env None (webhook_message "succeeded pi_1" "whsec_demo")
  = Some H_handle_user_message.
Proof. vm_compute. reflexivity. Qed.

(** Why a valid name has to reach [process_name]: the text [Help] is two
    or more characters long, yet [text_help] is registered ahead of the
    state handlers and takes it, so the session stays where it was. *)
Example help_is_not_a_name :
  2 ≤ py_len "Help"
  ∧ route_message demo_env (Some RegistrationStates_waiting_for_name)
      (text_message bob "Help") = Some H_text_help.
Proof. vm_compute. split; [discriminate | reflexivity]. Qed.

(** * Further properties *)

(** ** The roster: duplicates, leaving, round trips *)

Section RosterMore.

Implicit Types (event : Event) (user : Z).

Lemma list_remove_sublist (x : Z) (l : list Z) : list_remove x l `sublist_of` l.
Proof.
  induction l as [|y l IH]; simpl; [done|].
  destruct (decide (x = y)); [by apply sublist_cons | by apply sublist_skip].
Qed.

Lemma list_remove_other (x v : Z) (l : list Z) :
  v ≠ x → v ∈ list_remove x l ↔ v ∈ l.
Proof.
  intros Hne. induction l as [|y l IH]; simpl; [done|].
  destruct (decide (x = y)) as [->|Hxy].
  - rewrite elem_of_cons. split; [auto|]. intros [?|?]; [congruence|done].
  - rewrite !elem_of_cons, IH. done.
Qed.

Lemma list_remove_gone (x : Z) (l : list Z) :
  NoDup l → x ∉ list_remove x l.
Proof.
  induction l as [|y l IH]; simpl; intros Hnd; [by apply not_elem_of_nil|].
  apply NoDup_cons in Hnd as [Hy Hnd].
  destruct (decide (x = y)) as [->|Hxy]; [done|].
  rewrite elem_of_cons. intros [?|?]; [done|]. by apply IH.
Qed.

Lemma list_remove_len (x : Z) (l : list Z) :
  x ∈ l → len (list_remove x l) = len l - 1.
Proof.
  unfold len. induction l as [|y l IH]; simpl; [by intros ?%elem_of_nil|].
  destruct (decide (x = y)) as [->|Hxy]; simpl; [lia|].
  rewrite elem_of_cons. intros [?|Hin]; [done|].
  specialize (IH Hin). destruct l; [by apply elem_of_nil in Hin|].
  simpl in *. lia.
Qed.

Lemma list_remove_app_new (x : Z) (l : list Z) :
  x ∉ l → list_remove x (l ++ [x]) = l.
Proof.
  induction l as [|y l IH]; simpl; intros Hin.
  - by rewrite decide_True.
  - apply not_elem_of_cons in Hin as [Hxy Hin].
    rewrite decide_False by done. by rewrite IH.
Qed.

Lemma set_participants_same event : set_participants (participants event) event = event.
Proof. by destruct event. Qed.

Lemma join_event_NoDup event user :
  NoDup (participants event) →
  NoDup (participants (snd (join_event event user))).
Proof.
  intros Hnd. unfold join_event. destruct (cap_reached event); [done|].
  destruct (decide _) as [|Hin]; [done|]. simpl.
  apply NoDup_app. split; [done|]. split; [|apply NoDup_singleton].
  intros x Hx ?%list_elem_of_singleton. by subst.
Qed.

Lemma leave_event_NoDup event user :
  NoDup (participants event) →
  NoDup (participants (leave_event event user)).
Proof.
  intros Hnd. unfold leave_event. destruct (decide _); [|done]. simpl.
  eapply sublist_NoDup; [done | apply list_remove_sublist].
Qed.

(** X1: no run of joins and leaves ever lists a user twice in a roster
    that listed nobody twice. *)
Theorem roster_no_duplicates (ops : list roster_op) event :
  NoDup (participants event) →
  NoDup (participants (run_ops ops event)).
Proof.
  revert event. induction ops as [|op ops IH]; intros event Hnd; [done|].
  unfold run_ops. simpl. apply IH.
  destruct op; simpl; [by apply join_event_NoDup | by apply leave_event_NoDup].
Qed.

Lemma roster_no_duplicates_witness :
  NoDup (participants
           (run_ops [Join 10; Join 10; Join 20; Leave 10; Join 10]
                    (sample_event None [5]))).
Proof.
  apply (roster_no_duplicates _ (sample_event None [5])).
  compute_done.
Defined.

(** X2: leaving takes the user off a duplicate-free roster and nobody
    else: the user is no longer a participant, every other user is one
    exactly when they were before, and the count drops by one when the
    user was a participant; for a user who was not, the event is returned
    as it was. *)
Theorem leave_event_removes event user :
  NoDup (participants event) →
  (user ∉ participants (leave_event event user))
  ∧ (∀ v, v ≠ user →
          v ∈ participants (leave_event event user) ↔ v ∈ participants event)
  ∧ (user ∈ participants event →
     len (participants (leave_event event user))
     = len (participants event) - 1)
  ∧ (user ∉ participants event → leave_event event user = event).
Proof.
  intros Hnd. unfold leave_event.
  destruct (decide (user ∈ participants event)) as [Hin|Hin]; simpl.
  - split; [by apply list_remove_gone|]. split.
    + intros v Hv. by apply list_remove_other.
    + split; [intros _; by apply list_remove_len | done].
  - split; [done|]. split; [done|]. split; [done|done].
Qed.

Lemma leave_event_removes_witness :
  let event := sample_event (Some 3) [10; 20; 30] in
  (20 ∉ participants (leave_event event 20))
  ∧ (∀ v, v ≠ 20 →
          v ∈ participants (leave_event event 20) ↔ v ∈ participants event)
  ∧ (20 ∈ participants event →
     len (participants (leave_event event 20)) = len (participants event) - 1)
  ∧ (20 ∉ participants event → leave_event event 20 = event).
Proof.
  apply (leave_event_removes (sample_event (Some 3) [10; 20; 30]) 20).
  compute_done.
Defined.

(** X3: a join that adds a user and the leave of that user undo each
    other: for a user who is not a participant of an event the guard lets
    through, joining and then leaving returns the event exactly as it
    was, roster order included. *)
Theorem join_then_leave event user :
  user ∉ participants event → cap_reached event = false →
  leave_event (snd (join_event event user)) user = event.
Proof.
  intros Hin Hcap. unfold join_event. rewrite Hcap.
  rewrite decide_False by done. simpl. unfold leave_event. simpl.
  rewrite decide_True by (apply elem_of_app; right; by apply list_elem_of_singleton).
  rewrite list_remove_app_new by done. by destruct event.
Qed.

Lemma join_then_leave_witness :
  leave_event (snd (join_event (sample_event (Some 3) [10; 20]) 30)) 30
  = sample_event (Some 3) [10; 20].
Proof.
  apply (join_then_leave (sample_event (Some 3) [10; 20]) 30).
  - compute_done.
  - reflexivity.
Defined.

(** X4: a participant who leaves an event that is within its cap frees a
    seat: the next join, by any user, is answered with admission and that
    user is on the roster afterwards. *)
Theorem leave_frees_seat event user (N : Z) :
  max_participants event = Some N →
  len (participants event) ≤ N →
  user ∈ participants event →
  ∀ v, fst (join_event (leave_event event user) v) = true
       ∧ v ∈ participants (snd (join_event (leave_event event user) v)).
Proof.
  intros HN Hle Hin v.
  assert (Hroom : has_room (leave_event event user)).
  { unfold has_room, leave_event. rewrite decide_True by done. simpl.
    rewrite HN, list_remove_len by done. lia. }
  apply has_room_not_reached in Hroom as Hcap. split.
  - unfold join_event. rewrite Hcap. by destruct (decide _).
  - by apply join_event_member.
Qed.

Lemma leave_frees_seat_witness :
  let event := sample_event (Some 2) [10; 20] in
  fst (join_event event 30) = false
  ∧ fst (join_event (leave_event event 10) 30) = true
  ∧ 30 ∈ participants (snd (join_event (leave_event event 10) 30)).
Proof.
  split; [reflexivity|].
  apply (leave_frees_seat (sample_event (Some 2) [10; 20]) 10 2).
  - reflexivity.
  - vm_compute. discriminate.
  - apply list_elem_of_here.
Defined.

End RosterMore.

(** ** Queries against a changing store *)

Section QueriesMore.

Implicit Types (event : Event) (w : World) (d : DB).

Lemma elem_of_store_event (x e' : Event) d :
  x ∈ events (store_event e' d) ↔
  (x = e' ∧ ∃ e, e ∈ events d ∧ event_id e = event_id e')
  ∨ (event_id x ≠ event_id e' ∧ x ∈ events d).
Proof.
  unfold store_event. simpl. rewrite list_elem_of_fmap. split.
  - intros (e & -> & He). destruct (decide _) as [Hid|Hid]; eauto.
  - intros [[-> (e & He & Hid)]|[Hid Hx]].
    + exists e. by rewrite decide_True.
    + exists x. by rewrite decide_False.
Qed.

Lemma upcoming_elem now w x :
  x ∈ returned (get_upcoming_events now w) ↔
  x ∈ events (db w) ∧ is_active x = true ∧ now < event_date x.
Proof.
  simpl. rewrite merge_sort_Permutation, list_elem_of_filter. intuition lia.
Qed.

Lemma past_elem now w x :
  x ∈ returned (get_past_events now w) ↔
  x ∈ events (db w) ∧ is_active x = true ∧ event_date x < now.
Proof.
  simpl. rewrite merge_sort_Permutation, list_elem_of_filter. intuition lia.
Qed.

Lemma due_elem now w x :
  x ∈ returned (get_events_for_notification now w) ↔
  x ∈ events (db w) ∧ is_active x = true ∧ notification_sent x = false
  ∧ now ≤ event_date x ≤ now + one_day.
Proof. simpl. rewrite list_elem_of_filter. intuition lia. Qed.

Lemma available_elem who w x :
  x ∈ returned (get_available_events who w) →
  x ∈ events (db w) ∧ is_active x = true.
Proof.
  simpl. destruct who as [uid|]; [destruct (uid =? 0)|];
    rewrite ?list_elem_of_filter; tauto.
Qed.

Lemma user_events_elem user incl w x :
  x ∈ returned (get_user_events user incl w) ↔
  x ∈ events (db w) ∧ is_active x = true
  ∧ (creator_id x = user_id user
     ∨ incl = true
       ∧ ∃ e, e ∈ events (db w) ∧ user_id user ∈ participants e
              ∧ event_id e = event_id x).
Proof.
  simpl. destruct incl; rewrite !list_elem_of_filter.
  - unfold participated_events. rewrite list_elem_of_fmap.
    setoid_rewrite list_elem_of_filter. split.
    + intros (? & [?|(e & ? & ? & ?)] & ?); eauto 10.
    + intros (? & ? & [?|(_ & e & ? & ? & ?)]); eauto 10.
  - split; [tauto|]. intros (? & ? & [?|[? _]]); [tauto|done].
Qed.

(** X5: a cancelled event is on no list: once [cancel_event] is stored for
    an event, no row with its id is returned by the upcoming, past,
    notification, available or my-events queries, whatever the time, the
    excluded creator and the asking user. *)
Theorem cancelled_event_hidden event w (now : Z) (who : option Z)
    (user : User) (incl : bool) :
  let w' := world_of (session_cancel_event event w) in
  let other := λ x, event_id x ≠ event_id event in
  Forall other (returned (get_upcoming_events now w'))
  ∧ Forall other (returned (get_past_events now w'))
  ∧ Forall other (returned (get_events_for_notification now w'))
  ∧ Forall other (returned (get_available_events who w'))
  ∧ Forall other (returned (get_user_events user incl w')).
Proof.
  intros w' other.
  assert (Hrow : ∀ x, x ∈ events (db w') → is_active x = true → other x).
  { intros x Hin Hact. subst w'.
    change (x ∈ events (store_event (cancel_event event) (db w))) in Hin.
    apply elem_of_store_event in Hin as [[-> _]|[Hid _]]; [done|].
    exact Hid. }
  repeat split; apply Forall_forall; intros x H; apply Hrow.
  - apply upcoming_elem in H. tauto.
  - apply upcoming_elem in H. tauto.
  - apply past_elem in H. tauto.
  - apply past_elem in H. tauto.
  - apply due_elem in H. tauto.
  - apply due_elem in H. tauto.
  - by apply available_elem in H as [? _].
  - by apply available_elem in H as [_ ?].
  - apply user_events_elem in H. tauto.
  - apply user_events_elem in H. tauto.
Qed.

Example cancelled_event_hidden_sample :
  let w := club_world (sample_event (Some 2) [5]) in
  returned_ids (get_upcoming_events 0 w) = Some [1]
  ∧ returned_ids (get_upcoming_events 0
                    (world_of (session_cancel_event
                                 (sample_event (Some 2) [5]) w)))
    = Some [].
Proof. vm_compute. split; reflexivity. Qed.

(** X6: the current instant splits the active events: none is both
    upcoming and past; one that starts exactly now is on neither list, yet
    is due for its reminder while unsent; and every event due for a
    reminder is upcoming or starts exactly now. *)
Theorem now_splits_events (now : Z) w :
  let up := returned (get_upcoming_events now w) in
  let pa := returned (get_past_events now w) in
  let due := returned (get_events_for_notification now w) in
  (∀ e, ¬ (e ∈ up ∧ e ∈ pa))
  ∧ (∀ e, e ∈ events (db w) → event_date e = now →
          (e ∉ up) ∧ (e ∉ pa)
          ∧ (is_active e = true → notification_sent e = false → e ∈ due))
  ∧ (∀ e, e ∈ due → e ∈ up ∨ event_date e = now).
Proof.
  cbv zeta. split; [|split].
  - intros e [Hu Hp]. apply upcoming_elem in Hu. apply past_elem in Hp. lia.
  - intros e Hin Hnow. split; [|split].
    + intros Hu. apply upcoming_elem in Hu. lia.
    + intros Hp. apply past_elem in Hp. lia.
    + intros Hact Hsent. apply due_elem. unfold one_day. repeat split; auto; lia.
  - intros e He. apply due_elem in He as (Hin & Hact & _ & Hlo & _).
    destruct (decide (event_date e = now)); [by right|]. left.
    apply upcoming_elem. repeat split; auto; lia.
Qed.

Lemma store_event_elem (e e' : Event) d :
  e ∈ events d → event_id e = event_id e' → e' ∈ events (store_event e' d).
Proof. intros He Hid. apply elem_of_store_event. left. eauto. Qed.

(** X7: the my-events list follows the roster.  After a join that the
    guard lets through, the joined row of an active stored event is on the
    user's list; after a leave from a duplicate-free roster, no row with
    the event's id is on the list of a user who did not create it. *)
Theorem my_events_follow_roster event (user : User) w :
  event ∈ events (db w) →
  (is_active event = true → cap_reached event = false →
   snd (join_event event (user_id user))
   ∈ returned (get_user_events user true
                 (world_of (session_join_event event user w))))
  ∧ (NoDup (participants event) → creator_id event ≠ user_id user →
     ∀ x, x ∈ returned (get_user_events user true
                          (world_of (session_leave_event event user w))) →
          event_id x ≠ event_id event).
Proof.
  intros Hin. split.
  - intros Hact Hcap.
    pose proof (join_event_member event (user_id user) Hcap) as Hmem.
    pose proof (join_event_id event (user_id user)) as Hid.
    assert (Hact' : is_active (snd (join_event event (user_id user))) = true).
    { unfold join_event. rewrite Hcap. by destruct (decide _). }
    unfold session_join_event.
    destruct (join_event event (user_id user)) as [admitted event'].
    simpl in Hmem, Hid, Hact'.
    apply user_events_elem.
    assert (Hrow : event' ∈ events (store_event event' (db w)))
      by (by apply (store_event_elem event)).
    split; [exact Hrow|]. split; [done|]. right. split; [done|].
    exists event'. eauto.
  - intros Hnd Hcreator x Hx Hid.
    apply user_events_elem in Hx as (Hrow & _ & Hlisted).
    change (x ∈ events (store_event (leave_event event (user_id user)) (db w)))
      in Hrow.
    assert (Hleft : ∀ y, y ∈ events (store_event
                                       (leave_event event (user_id user))
                                       (db w)) →
                         event_id y = event_id event →
                         y = leave_event event (user_id user)).
    { intros y Hy Hyid. apply elem_of_store_event in Hy as [[-> _]|[Hne _]];
        [done|]. exfalso. apply Hne. rewrite Hyid.
      unfold leave_event. by destruct (decide _). }
    pose proof (Hleft x Hrow Hid) as ->.
    destruct Hlisted as [Hc|(_ & e & He & Hmem & Heid)].
    + apply Hcreator. rewrite <- Hc. unfold leave_event. by destruct (decide _).
    + rewrite (Hleft e He) in Hmem by congruence.
      revert Hmem. unfold leave_event.
      destruct (decide _) as [|Hout]; [|exact Hout].
      by apply list_remove_gone.
Qed.

Lemma my_events_follow_roster_witness :
  let event := sample_event (Some 2) [5] in
  (snd (join_event event (user_id alice_row))
   ∈ returned (get_user_events alice_row true
                 (world_of (session_join_event event alice_row demo_world))))
  ∧ ∀ x, x ∈ returned (get_user_events carol_row true
                         (world_of (session_leave_event event carol_row
                                      demo_world))) →
         event_id x ≠ event_id event.
Proof.
  split.
  - apply (my_events_follow_roster (sample_event (Some 2) [5]) alice_row
             demo_world); [apply list_elem_of_here | reflexivity | reflexivity].
  - apply (my_events_follow_roster (sample_event (Some 2) [5]) carol_row
             demo_world); [apply list_elem_of_here | compute_done |].
    vm_compute. discriminate.
Defined.

End QueriesMore.

(** ** Payment rows *)

Section PaymentsMore.

Implicit Types (w : World) (id s : string).

(** X8: [update_payment_status] never adds or removes a payment, never
    touches the events or the users, and of each payment it changes at
    most the status, and only for a row carrying the given Stripe id; when
    no row or more than one row carries the id it changes nothing at all
    and returns no payment. *)
Theorem update_payment_status_frame id s w :
  let o := update_payment_status id s w in
  let rows := filter (λ q, stripe_payment_id q = id) (payments (db w)) in
  events (db (world_of o)) = events (db w)
  ∧ users (db (world_of o)) = users (db w)
  ∧ Forall2 (λ q q', set_status (status q) q' = q
                     ∧ (stripe_payment_id q ≠ id → q' = q))
            (payments (db w)) (payments (db (world_of o)))
  ∧ (length rows ≠ 1%nat →
     world_of o = w ∧ ∀ p w', o ≠ Return (Some p) w').
Proof.
  cbv zeta. unfold update_payment_status.
  destruct (filter _ _) as [|p [|p' l]] eqn:Hrows; simpl.
  - split; [done|]. split; [done|]. split; [|done].
    apply Forall2_same_length_lookup. split; [done|].
    intros i q q' Hq Hq'. assert (q' = q) as -> by congruence.
    split; [by destruct q|done].
  - split; [done|]. split; [done|]. split; [|done].
    apply Forall2_fmap_r, Forall_Forall2_diag, Forall_forall.
    intros q _. simpl. case_decide; (split; [by destruct q|done]).
  - split; [done|]. split; [done|]. split; [|done].
    apply Forall2_same_length_lookup. split; [done|].
    intros i q q' Hq Hq'. assert (q' = q) as -> by congruence.
    split; [by destruct q|done].
Qed.

Lemma update_payment_status_frame_witness :
  world_of (update_payment_status "pi_404" "succeeded" demo_world)
  = demo_world
  ∧ ∀ p w', update_payment_status "pi_404" "succeeded" demo_world
            ≠ Return (Some p) w'.
Proof.
  apply (update_payment_status_frame "pi_404" "succeeded" demo_world).
  vm_compute. discriminate.
Defined.




End PaymentsMore.

(** ** The event callbacks *)

Section Callbacks.

Context (env : Env) (out : Outside).

Implicit Types (sender : TelegramUser) (user : User) (event : Event)
  (w : World).

(** Looking the sender up, or creating the row, touches the users only. *)
Lemma get_or_create_user_frame sender w user w1 :
  get_or_create_user sender w = Return user w1 →
  events (db w1) = events (db w) ∧ payments (db w1) = payments (db w)
  ∧ storage w1 = storage w ∧ outbox w1 = outbox w.
Proof.
  unfold get_or_create_user.
  destruct (users (db w) !! tg_id sender); intros [= <- <-]; done.
Qed.

Lemma event_by_id_events (eid : Z) (d d' : DB) :
  events d = events d' → event_by_id eid d = event_by_id eid d'.
Proof. unfold event_by_id. by intros ->. Qed.

Lemma event_by_id_frame (eid : Z) w w1 :
  events (db w1) = events (db w) →
  event_by_id eid (db w1) = event_by_id eid (db w).
Proof. apply event_by_id_events. Qed.


Ltac callback_run :=
  unfold format_event_info, session_leave_event, session_cancel_event,
    create_payment, send_message, modify_db, modify, get_world, raise,
    mbind, M_bind, mret, M_ret; simpl;
  repeat (case_match; simpl in *; simplify_eq; auto).




Lemma cancel_event_callback_found sender (eid : Z) w user w1 :
  get_or_create_user sender w = Return user w1 →
  cancel_event_callback env out sender eid w
  = match event_by_id eid (db w) with
    | Some event =>
        if bool_decide (creator_id event ≠ user_id user)
        then send_message (tg_id sender)
               (TEXTS env (language user) "event_not_found") w1
        else
          (session_cancel_event event;;
           info ← format_event_info out (cancel_event event) (language user);
           send_message (tg_id sender)
             (info ++ nl ++ nl ++ "❌ "
                   ++ TEXTS env (language user) "event_cancelled")) w1
    | None =>
        send_message (tg_id sender)
          (TEXTS env (language user) "event_not_found") w1
    end.
Proof.
  intros Hu.
  pose proof (get_or_create_user_frame _ _ _ _ Hu) as (Hev & _).
  unfold cancel_event_callback. unfold mbind at 1. unfold M_bind at 1.
  rewrite Hu. unfold mbind at 1. unfold M_bind at 1. unfold get_world.
  rewrite (event_by_id_frame eid w w1 Hev).
  destruct (event_by_id eid (db w)); [|done]. by destruct (bool_decide _).
Qed.

(** X12: only its creator cancels an event.  The cancel button never
    touches a payment; pressed for an event that does not exist, or by a
    user who did not create it, it leaves every event as it was; pressed
    by the creator it stores the event as inactive with its roster
    unchanged. *)
Theorem only_creator_cancels sender (eid : Z) w user w1 :
  get_or_create_user sender w = Return user w1 →
  let w' := world_of (cancel_event_callback env out sender eid w) in
  payments (db w') = payments (db w)
  ∧ (∀ event, event_by_id eid (db w) = Some event →
              creator_id event ≠ user_id user →
              events (db w') = events (db w))
  ∧ (event_by_id eid (db w) = None → events (db w') = events (db w))
  ∧ (∀ event, event_by_id eid (db w) = Some event →
              creator_id event = user_id user →
              events (db w') = events (store_event (cancel_event event) (db w))
              ∧ ∃ event', event_by_id eid (db w') = Some event'
                          ∧ is_active event' = false
                          ∧ participants event' = participants event).
Proof.
  intros Hu w'.
  pose proof (get_or_create_user_frame _ _ _ _ Hu) as (Hev & Hpay & _).
  subst w'. rewrite (cancel_event_callback_found _ _ _ _ _ Hu).
  destruct w1 as [[us1 es1 ps1] st1 ob1]. simpl in Hev, Hpay. subst es1 ps1.
  split; [|split; [|split]].
  - destruct (event_by_id eid (db w)) as [event|]; [|done].
    destruct (bool_decide _); [done|]. callback_run.
  - intros event -> Hne. by rewrite bool_decide_eq_true_2.
  - by intros ->.
  - intros event Hevent Hc. rewrite Hevent.
    rewrite bool_decide_eq_false_2 by (by intros ?).
    assert (Hdb : events (db (world_of
                    ((session_cancel_event event;;
                      info ← format_event_info out (cancel_event event)
                                (language user);
                      send_message (tg_id sender)
                        (info ++ nl ++ nl ++ "❌ "
                              ++ TEXTS env (language user) "event_cancelled"))
                       {| db := {| users := us1; events := events (db w);
                                   payments := payments (db w) |};
                          storage := st1; outbox := ob1 |})))
                  = events (store_event (cancel_event event) (db w))).
    { callback_run. }
    split; [exact Hdb|].
    exists (cancel_event event). split; [|done].
    rewrite (event_by_id_events eid _ (store_event (cancel_event event) (db w)))
      by exact Hdb.
    apply (event_by_id_store _ event); [done|].
    by apply event_by_id_id in Hevent.
Qed.


End Callbacks.



Lemma only_creator_cancels_witness :
  let w := club_world (sample_event (Some 2) [5]) in
  events (db (world_of (cancel_event_callback demo_env demo_out carol 1 w)))
  = events (db w)
  ∧ ∃ event', event_by_id 1
                (db (world_of (cancel_event_callback demo_env demo_out
                                 alice 1 w))) = Some event'
              ∧ is_active event' = false
              ∧ participants event' = [5].
Proof.
  pose proof (only_creator_cancels demo_env demo_out carol 1
                (club_world (sample_event (Some 2) [5])) carol_row
                (club_world (sample_event (Some 2) [5])) eq_refl)
    as (_ & Hother & _).
  pose proof (only_creator_cancels demo_env demo_out alice 1
                (club_world (sample_event (Some 2) [5])) alice_row
                (club_world (sample_event (Some 2) [5])) eq_refl)
    as (_ & _ & _ & Hcreator).
  split.
  - apply (Hother (sample_event (Some 2) [5]));
      [reflexivity | vm_compute; discriminate].
  - apply (Hcreator (sample_event (Some 2) [5])); reflexivity.
Defined.


(** ** The user directory and the registration handlers at their edges *)

Section Directory.

Implicit Types (sender : TelegramUser) (w : World).

Lemma next_user_id_above (d : DB) (k : Z) (row : User) :
  users d !! k = Some row → user_id row < next_user_id d.
Proof.
  unfold next_user_id.
  apply (map_fold_weak_ind
           (λ r (m : gmap Z User), m !! k = Some row → user_id row < 1 + r)).
  - by rewrite lookup_empty.
  - intros i x m r _ IH. rewrite lookup_insert.
    destruct (decide (i = k)) as [->|]; [intros [= ->]; lia|].
    intros H. specialize (IH H). lia.
Qed.

(** X14: [get_or_create_user] returns the sender's row and leaves a store
    in which a second call returns the same row and changes nothing; the
    rows of all other users are as they were; an existing row is returned
    untouched; a created row is stored under the sender's Telegram id with
    [registration_complete] false, language [en] and a primary key larger
    than every key in the table. *)
Theorem get_or_create_user_once sender w :
  ∃ user w1,
    get_or_create_user sender w = Return user w1
    ∧ get_or_create_user sender w1 = Return user w1
    ∧ users (db w1) !! tg_id sender = Some user
    ∧ (∀ k, k ≠ tg_id sender → users (db w1) !! k = users (db w) !! k)
    ∧ (∀ row, users (db w) !! tg_id sender = Some row → user = row ∧ w1 = w)
    ∧ (users (db w) !! tg_id sender = None →
       telegram_id user = tg_id sender
       ∧ registration_complete user = false
       ∧ language user = "en"
       ∧ ∀ k row, users (db w) !! k = Some row → user_id row < user_id user).
Proof.
  unfold get_or_create_user.
  destruct (users (db w) !! tg_id sender) as [row|] eqn:Hrow.
  - exists row, w. rewrite Hrow.
    split; [done|]. split; [done|]. split; [done|]. split; [done|].
    split; [|done]. by intros ? [= ->].
  - eexists _, _. split; [reflexivity|]. simpl. rewrite lookup_insert_eq.
    split; [reflexivity|]. split; [reflexivity|]. split.
    + intros k Hk. by rewrite lookup_insert_ne.
    + split; [done|]. intros _. repeat split.
      intros k row. apply next_user_id_above.
Qed.

Example get_or_create_user_sample :
  ∃ w1, get_or_create_user bob (club_world (sample_event None []))
        = Return bob_row w1
        ∧ get_or_create_user bob w1 = Return bob_row w1
        ∧ get_or_create_user alice w1 = Return alice_row w1.
Proof. eexists. vm_compute. repeat split. Qed.

End Directory.

Section RegistrationEdges.

Context (env : Env).

Implicit Types (m : Message) (w : World) (user : User).

Ltac run_handler :=
  unfold try_except, answer, send_message, commit_user, set_state,
    update_data, clear, get_data, get_state, modify_db, modify, get_world,
    raise, mbind, M_bind, mret, M_ret; simpl.

Lemma get_or_create_user_same_session sender w user w1 :
  get_or_create_user sender w = Return user w1 →
  storage w1 = storage w ∧ outbox w1 = outbox w
  ∧ ∀ key, fsm_record key w1 = fsm_record key w.
Proof.
  unfold get_or_create_user, fsm_record.
  destruct (users (db w) !! tg_id sender); intros [= <- <-]; done.
Qed.

(** X15: a registration step that rejects its input changes nothing.
    [process_name] given no text or a text of fewer than two characters,
    and [process_phone] given no contact or a contact without a phone
    number, write nothing to the sender's row, leave the session in its
    state and send the one text that asks again. *)
Theorem registration_input_rejected m w user w1 :
  let key := tg_id (from_user m) in
  get_or_create_user (from_user m) w = Return user w1 →
  ((text m = None ∨ ∃ t, text m = Some t ∧ py_len t < 2) →
   process_name env m w
   = Return tt (sent key (get_text env "invalid_name" (session_language key w))
                     w1))
  ∧ ((contact m = None ∨ contact m = Some (mkContact "")) →
     process_phone env m w
     = Return tt (sent key (get_text env "invalid_phone"
                              (session_language key w)) w1)).
Proof.
  intros key Hu.
  pose proof (get_or_create_user_same_session _ _ _ _ Hu) as (_ & _ & Hrec).
  unfold session_language. rewrite <- (Hrec key). split.
  - intros Hbad. unfold process_name. run_handler. rewrite Hu. simpl.
    destruct Hbad as [->|(t & -> & Hlen)]; [done|].
    apply Z.ltb_lt in Hlen. rewrite Hlen, orb_true_r. done.
  - intros Hbad. unfold process_phone. run_handler. rewrite Hu. simpl.
    by destruct Hbad as [->| ->].
Qed.

(** X16: [/start] from a user whose registration is complete starts
    nothing: the database and every session, the sender's own included,
    are as they were, and the welcome and help texts of the user's
    language are sent. *)
Theorem start_keeps_registered_user m w user :
  users (db w) !! tg_id (from_user m) = Some user →
  registration_complete user = true →
  cmd_start env m w
  = Return tt (sent (tg_id (from_user m)) (TEXTS env (language user) "help")
                 (sent (tg_id (from_user m))
                       (TEXTS env (language user) "welcome") w)).
Proof.
  intros Hrow Hreg. unfold cmd_start, get_or_create_user. run_handler.
  rewrite Hrow. simpl. rewrite Hreg. simpl. done.
Qed.

End RegistrationEdges.

Lemma registration_input_rejected_witness :
  let w := mkWorld (db demo_world)
             {[100 := mkFSM (Some RegistrationStates_waiting_for_name)
                            {["language" := "ru"]}]} [] in
  py_len "Я" = 1
  ∧ process_name demo_env (text_message alice "Я") w
    = Return tt (sent 100 "invalid_name" w)
  ∧ process_phone demo_env (text_message alice "+100") w
    = Return tt (sent 100 "invalid_phone" w).
Proof.
  split; [reflexivity|].
  pose proof (registration_input_rejected demo_env
                (text_message alice "Я")
                (mkWorld (db demo_world)
                   {[100 := mkFSM (Some RegistrationStates_waiting_for_name)
                                  {["language" := "ru"]}]} [])
                alice_row _ eq_refl) as [H1 _].
  pose proof (registration_input_rejected demo_env
                (text_message alice "+100")
                (mkWorld (db demo_world)
                   {[100 := mkFSM (Some RegistrationStates_waiting_for_name)
                                  {["language" := "ru"]}]} [])
                alice_row _ eq_refl) as [_ H2].
  split.
  - apply H1. right. eexists. split; [reflexivity|]. vm_compute. reflexivity.
  - apply H2. by left.
Defined.

Lemma start_keeps_registered_user_witness :
  let w := mkWorld (db demo_world)
             {[100 := mkFSM (Some EventStates_waiting_for_title) ∅]} [] in
  cmd_start demo_env (text_message alice "/start") w
  = Return tt (sent 100 "help" (sent 100 "welcome" w)).
Proof.
  apply (start_keeps_registered_user demo_env
           (text_message alice "/start")
           (mkWorld (db demo_world)
              {[100 := mkFSM (Some EventStates_waiting_for_title) ∅]} [])
           alice_row); reflexivity.
Defined.


Section RegistrationMore.

Context (env : Env) (u : TelegramUser).

Ltac run_step :=
  unfold try_except, answer, send_message, commit_user, set_state,
    update_data, clear, get_data, get_state, modify_db, modify, get_world,
    raise, mbind, M_bind, mret, M_ret; simpl.

Ltac stands_step :=
  unfold stands, fsm_record; simpl;
  repeat match goal with
         | H : telegram_id _ = _ |- _ => rewrite H
         end;
  rewrite ?lookup_insert_eq; simpl; auto.

Lemma process_country_step (t : string) w row :
  stands u w row (Some RegistrationStates_waiting_for_country) →
  ∃ w',
    process_country env (text_message u t) w = Return tt w'
    ∧ stands u w' (set_country (answer_of t) row)
        (Some RegistrationStates_waiting_for_about).
Proof.
  intros (Hrow & Htid & Hst). unfold process_country, answer_of.
  run_step. rewrite (get_or_create_user_found u _ _ Hrow). simpl.
  destruct (decide (t = "/skip")) as [->|Hne].
  - eexists. split; [reflexivity|]. stands_step.
  - rewrite !bool_decide_eq_false_2 by congruence.
    eexists. split; [reflexivity|]. stands_step.
Qed.

Lemma process_about_step (t : string) w row :
  stands u w row (Some RegistrationStates_waiting_for_about) →
  ∃ w',
    process_about env (text_message u t) w = Return tt w'
    ∧ stands u w' (set_registration_complete true
                     (set_about (answer_of t) row)) None
    ∧ storage w' !! tg_id u = Some (mkFSM None ∅).
Proof.
  intros (Hrow & Htid & Hst). unfold process_about, notify_admin, answer_of.
  run_step. rewrite (get_or_create_user_found u _ _ Hrow). simpl.
  destruct (decide (t = "/skip")) as [->|Hne].
  - simpl. destruct (decide (tg_id u ≠ ADMIN_ID env)); run_step;
      (eexists; split; [reflexivity|]; split; [stands_step|]; simpl;
       by rewrite lookup_insert_eq).
  - rewrite !bool_decide_eq_false_2 by congruence.
    destruct (decide (tg_id u ≠ ADMIN_ID env)); run_step;
      (eexists; split; [reflexivity|]; split; [stands_step|]; simpl;
       by rewrite lookup_insert_eq).
Qed.

(** X17: a registration whose optional steps are answered stores the
    answers.  For a user who has not completed a registration, the run
    [/start], language button, name, shared contact, country text, about
    text goes through the five waiting states in order and ends with the
    session cleared and the row complete, holding the chosen language,
    the name, the phone, and for each of country and about the text given,
    or nothing where the text was [/skip].  Each text has to reach the
    handler of its state. *)
Theorem registration_with_answers
    (choice name phone country_text about_text : string) w :
  unregistered (db w) u →
  route_message env (Some RegistrationStates_waiting_for_name)
    (text_message u name) = Some H_process_name →
  2 ≤ py_len name →
  phone ≠ "" →
  route_message env (Some RegistrationStates_waiting_for_country)
    (text_message u country_text) = Some H_process_country →
  route_message env (Some RegistrationStates_waiting_for_about)
    (text_message u about_text) = Some H_process_about →
  ∃ w' row,
    run_updates env (tg_id u)
      (registration_run_answers u choice name phone country_text about_text)
      w
    = Return [ (Embedded, Some RegistrationStates_waiting_for_language);
               (Embedded, Some RegistrationStates_waiting_for_name);
               (Embedded, Some RegistrationStates_waiting_for_phone);
               (Embedded, Some RegistrationStates_waiting_for_country);
               (Embedded, Some RegistrationStates_waiting_for_about);
               (Embedded, None) ] w'
    ∧ users (db w') !! tg_id u = Some row
    ∧ registration_complete row = true
    ∧ country row = answer_of country_text
    ∧ about row = answer_of about_text
    ∧ real_name row = Some name ∧ phone_number row = Some phone
    ∧ split "_" ("lang_" ++ choice) !! 1%nat = Some (language row)
    ∧ storage w' !! tg_id u = Some (mkFSM None ∅).
Proof.
  intros Hnew Hname Hlen Hphone Hcountry Habout.
  destruct (cmd_start_enters env u (text_message u "/start") w eq_refl Hnew)
    as (w1 & row1 & E1 & S1).
  destruct (chosen_language choice) as [l Hl].
  destruct (process_language_selection_step env u
              (mkCallbackQuery u ("lang_" ++ choice)) l w1 row1 _
              eq_refl Hl S1) as (w2 & E2 & S2).
  destruct (process_name_step env u name w2 _ S2 Hlen) as (w3 & E3 & S3).
  destruct (process_phone_step env u phone w3 _ S3 Hphone) as (w4 & E4 & S4).
  destruct (process_country_step country_text w4 _ S4) as (w5 & E5 & S5).
  destruct (process_about_step about_text w5 _ S5) as (w6 & E6 & S6 & Hclear).
  exists w6. eexists. split; [|split; [apply S6|]].
  - unfold registration_run_answers.
    eapply run_updates_cons; [|apply S1|].
    { eapply (feed_message env u _ H_cmd_start);
        [done|done| |by left|exact E1]. reflexivity. }
    eapply run_updates_cons; [|apply S2|].
    { unfold feed_update.
      assert (route_callback (mkCallbackQuery u ("lang_" ++ choice))
              = H_process_language_selection) as ->
        by (destruct choice; vm_compute; reflexivity).
      unfold mbind, M_bind. by rewrite E2. }
    eapply run_updates_cons; [|apply S3|].
    { eapply (feed_message env u _ H_process_name);
        [done|apply S2|exact Hname|by right; left|exact E3]. }
    eapply run_updates_cons; [|apply S4|].
    { eapply (feed_message env u _ H_process_phone);
        [done|apply S3|reflexivity|by right; right; left|exact E4]. }
    eapply run_updates_cons; [|apply S5|].
    { eapply (feed_message env u _ H_process_country);
        [done|apply S4|exact Hcountry|by right; right; right; left|exact E5]. }
    eapply run_updates_cons; [|apply S6|].
    { eapply (feed_message env u _ H_process_about);
        [done|apply S5|exact Habout|by right; right; right; right|exact E6]. }
    reflexivity.
  - do 5 (split; [reflexivity|]). split; [exact Hl | exact Hclear].
Qed.

End RegistrationMore.

Lemma registration_with_answers_witness :
  ∃ w' row,
    run_updates demo_env (tg_id bob)
      (registration_run_answers bob "ru" "Bob Marley" "+200" "Jamaica"
         "/skip") demo_world
    = Return [ (Embedded, Some RegistrationStates_waiting_for_language);
               (Embedded, Some RegistrationStates_waiting_for_name);
               (Embedded, Some RegistrationStates_waiting_for_phone);
               (Embedded, Some RegistrationStates_waiting_for_country);
               (Embedded, Some RegistrationStates_waiting_for_about);
               (Embedded, None) ] w'
    ∧ users (db w') !! tg_id bob = Some row
    ∧ registration_complete row = true
    ∧ country row = answer_of "Jamaica"
    ∧ about row = answer_of "/skip"
    ∧ real_name row = Some "Bob Marley" ∧ phone_number row = Some "+200"
    ∧ split "_" ("lang_" ++ "ru") !! 1%nat = Some (language row)
    ∧ storage w' !! tg_id bob = Some (mkFSM None ∅).
Proof.
  apply (registration_with_answers demo_env bob "ru" "Bob Marley" "+200"
           "Jamaica" "/skip" demo_world).
  - vm_compute. exact I.
  - vm_compute. reflexivity.
  - vm_compute. discriminate.
  - discriminate.
  - vm_compute. reflexivity.
  - vm_compute. reflexivity.
Defined.

Section Isolation.

Context (env : Env).


End Isolation.


Section Routing.

Context (env : Env).

(** A command filter accepts no message that [F.text] refuses. *)
Lemma Command_needs_text (name : string) (m : Message) :
  F_text m = false → Command env name m = false.
Proof.
  unfold F_text, Command.
  destruct (text m) as [[|c t]|]; [reflexivity|discriminate|reflexivity].
Qed.

Lemma F_text_in_needs_text (texts : list string) (m : Message) :
  "" ∉ texts → F_text m = false → F_text_in texts m = false.
Proof.
  unfold F_text, F_text_in. intros Hno.
  destruct (text m) as [[|c t]|]; [|discriminate|reflexivity].
  intros _. by apply bool_decide_eq_false_2.
Qed.

Lemma F_text_eq_needs_text (s : string) (m : Message) :
  s ≠ "" → F_text m = false → F_text_eq s m = false.
Proof.
  unfold F_text, F_text_eq. intros Hs.
  destruct (text m) as [[|c t]|]; [|discriminate|].
  - intros _. apply bool_decide_eq_false_2. congruence.
  - intros _. by apply bool_decide_eq_false_2.
Qed.

(** The table of decorators, read top to bottom, picks the handler
    [route_message] picks. *)
Lemma dispatch_message_route (st : option State) (m : Message) :
  dispatch_message env st m = registered_of <$> route_message env st m.
Proof.
  unfold dispatch_message, route_message, admin_router_messages,
    user_router_messages, CommandStart. simpl.
  destruct (Command env "admin" m); [reflexivity|].
  destruct (Command env "import_meetupshare" m); [reflexivity|].
  destruct (Command env "start" m); [reflexivity|].
  destruct (Command env "help" m); [reflexivity|].
  destruct (text_help_filter m); [reflexivity|].
  do 4 (destruct (in_state st _); [reflexivity|]).
  destruct (Command env "skip" m); [reflexivity|].
  destruct (F_text m) eqn:Htext; [reflexivity|].
  rewrite !F_text_in_needs_text, F_text_eq_needs_text by
    (try done; rewrite !elem_of_cons, elem_of_nil; intros H;
     repeat destruct H as [H|H]; done).
  rewrite !(Command_needs_text _ m Htext).
  do 4 (destruct (in_state st _); [reflexivity|]). reflexivity.
Qed.


(** X20: [cmd_cancel] drops the sender's session and nothing else.  In
    a session with no state it answers once and leaves the world as
    [get_or_create_user] left it; in a session with a state it answers
    once, the sender's state and session data are gone, and the database
    and every other session are as [get_or_create_user] left them. *)
Theorem cmd_cancel_effect (m : Message) (w : World) :
  let key := tg_id (from_user m) in
  let w1 := world_of (get_or_create_user (from_user m) w) in
  ∃ reply,
    cmd_cancel env m w
    = Return tt (sent key reply
                   (if fsm_state (fsm_record key w) is Some _
                    then set_storage (<[key := mkFSM None ∅]> (storage w1)) w1
                    else w1)).
Proof.
  intros key w1. subst key w1.
  unfold cmd_cancel, try_except, get_or_create_user, get_state, clear,
    answer, send_message, modify, get_world, fsm_record, sent,
    mbind, M_bind, mret, M_ret.
  destruct (users (db w) !! tg_id (from_user m)) as [row|]; simpl;
    destruct (storage w !! tg_id (from_user m)) as [[[s|] d]|]; simpl;
    eexists; reflexivity.
Qed.

(** X21: whenever the [/skip] command handler runs, it does nothing.
    The state handlers of the country and the about steps are registered
    above [process_skip], so a message is dispatched to it only in a
    session that waits for neither; there it sends no message and leaves
    the world as [get_or_create_user] left it. *)
Theorem skip_command_idle (m : Message) (w : World) :
  dispatch_message env (fsm_state (fsm_record (tg_id (from_user m)) w)) m
  = Some R_process_skip →
  process_skip env m w
  = Return tt (world_of (get_or_create_user (from_user m) w)).
Proof.
  rewrite dispatch_message_route. unfold route_message, in_state.
  destruct (Command env "admin" m); [discriminate|].
  destruct (Command env "import_meetupshare" m); [discriminate|].
  destruct (CommandStart env m); [discriminate|].
  destruct (Command env "help" m); [discriminate|].
  destruct (text_help_filter m); [discriminate|].
  do 2 (case_bool_decide; [discriminate|]).
  do 2 (case_bool_decide; [discriminate|]).
  intros _.
  unfold process_skip, try_except, get_or_create_user, get_state, get_data,
    get_world, fsm_record in *.
  unfold mbind, M_bind, mret, M_ret.
  destruct (users (db w) !! tg_id (from_user m)) as [row|]; simpl;
    repeat case_bool_decide; try congruence; reflexivity.
Qed.

(** X22: [/settings] shows a Russian-speaking user no stored value.  For
    a registered user whose language is not [en] the answer is the
    Russian text with the three placeholders of absence, whatever phone,
    country and about the row holds. *)
Theorem settings_hide_values (m : Message) (w : World) (user : User) :
  users (db w) !! tg_id (from_user m) = Some user →
  registration_complete user = true →
  language user ≠ "en" →
  cmd_settings env m w
  = Return tt
      (sent (tg_id (from_user m))
         (settings_text "ru" ["Русский"; "Не указан"; "Не указана";
                              "Не указано"]) w).
Proof.
  intros Hrow Hreg Hlang.
  unfold cmd_settings, try_except, get_or_create_user, answer, send_message,
    modify, sent, mbind, M_bind, mret, M_ret.
  rewrite Hrow. simpl. rewrite Hreg. simpl.
  unfold reply_language, settings_values, settings_text. rewrite Hreg.
  rewrite !bool_decide_eq_false_2 by done. reflexivity.
Qed.

End Routing.

Lemma skip_command_idle_witness :
  process_skip demo_env (text_message alice "/skip") demo_world
  = Return tt demo_world.
Proof.
  apply (skip_command_idle demo_env (text_message alice "/skip") demo_world).
  vm_compute. reflexivity.
Defined.

Lemma settings_hide_values_witness :
  let user := set_language "ru" alice_row in
  cmd_settings demo_env (text_message alice "/settings")
    (with_user user demo_world)
  = Return tt
      (sent 100
         (settings_text "ru" ["Русский"; "Не указан"; "Не указана";
                              "Не указано"])
         (with_user user demo_world)).
Proof.
  intros user.
  apply (settings_hide_values demo_env (text_message alice "/settings")
           (with_user user demo_world) user).
  - vm_compute. reflexivity.
  - reflexivity.
  - vm_compute. discriminate.
Defined.

Section Scheduler.

Implicit Types (e x : Event) (l : list Event) (d : DB) (w : World).









End Scheduler.


Section Buttons.

Implicit Types (p q d data : string) (f : DataFilter)
  (table : list (RegisteredCallback * DataFilter)).

Lemma prefix_empty d : String.prefix "" d = true.
Proof. by destruct d. Qed.

Lemma prefix_same d : String.prefix d d = true.
Proof.
  induction d as [|c d IH]; [done|]. simpl.
  by destruct (ascii_dec c c).
Qed.

(** Two beginnings of one text: one begins with the other. *)
Lemma prefix_apart p q d :
  String.prefix p d = true → String.prefix q d = true →
  String.prefix p q = true ∨ String.prefix q p = true.
Proof.
  revert p q. induction d as [|c d IH]; intros [|a p] [|b q]; simpl;
    try (intros; left; (apply prefix_empty || reflexivity); fail);
    try (intros; right; (apply prefix_empty || reflexivity); fail);
    try discriminate.
  destruct (ascii_dec a c) as [->|]; [|discriminate].
  destruct (ascii_dec b c) as [->|]; [|discriminate].
  destruct (ascii_dec c c); [|done]. apply IH.
Qed.

Lemma data_accepts_stem f data :
  data_accepts f data = true → String.prefix (stem f) data = true.
Proof.
  destruct f as [s|s]; simpl; [|done].
  intros ->%bool_decide_eq_true. apply prefix_same.
Qed.

(** In a table whose filters are apart, the entry that accepts the data
    is the one dispatched, wherever it stands. *)
Lemma first_callback_apart table data h f :
  apart table = true → (h, f) ∈ table → data_accepts f data = true →
  first_callback table data = Some h.
Proof.
  induction table as [|[h0 f0] table IH]; simpl;
    [by intros _ ?%elem_of_nil|].
  intros [Hhead Hrest]%andb_true_iff [[= -> ->]|Hin]%elem_of_cons Hacc.
  - by rewrite Hacc.
  - destruct (data_accepts f0 data) eqn:Hacc0; [|by apply IH].
    exfalso. rewrite forallb_forall in Hhead.
    apply list_elem_of_In, Hhead in Hin. simpl in Hin.
    apply andb_true_iff in Hin as [Hpq Hqp].
    apply negb_true_iff in Hpq, Hqp.
    destruct (prefix_apart (stem f0) (stem f) data); try congruence;
      by apply data_accepts_stem.
Qed.

(** The table of callback decorators picks what [route_callback] picks. *)
Lemma dispatch_callback_route c :
  route_callback c = callback_handler_of (dispatch_callback (cb_data c)).
Proof.
  unfold route_callback, dispatch_callback, admin_router_callbacks,
    user_router_callbacks. simpl.
  destruct (bool_decide (cb_data c = "create_broadcast")); [done|].
  destruct (String.prefix "broadcast_" (cb_data c)); [done|].
  destruct (bool_decide (cb_data c = "list_chats")); [done|].
  destruct (String.prefix "history_" (cb_data c)); [done|].
  destruct (String.prefix "lang_" (cb_data c)); [done|].
  repeat (case_match; [done|]). done.
Qed.

(** X24: no callback is claimed by two handlers.  Whatever the data of
    a callback query, a handler whose filter accepts it is the handler
    dispatched: no filter registered above it accepts the same data, so
    the order of the callback decorators decides nothing. *)
Theorem callback_filters_apart data :
  Forall (λ e, data_accepts (snd e) data = true
               → dispatch_callback data = Some (fst e))
         (admin_router_callbacks ++ user_router_callbacks).
Proof.
  apply Forall_forall. intros [h f] Hin Hacc. simpl in *.
  by apply (first_callback_apart _ data h f).
Qed.

(** X25: the handler behind each inline button.  Every callback button
    the keyboards of keyboards.py build reaches the handler of its
    purpose, for every user id, event id, language and pair of flags,
    with two exceptions: the [my_events] button of the events menu and
    the four [broadcast:] buttons of the broadcast confirmation reach no
    handler at all. *)
Theorem buttons_reach_handlers (user_id event_id : Z)
    (username lang : string) (is_participant is_creator : bool) :
  handlers_of (get_admin_chat_keyboard user_id username)
  = [Some C_show_chat_history]
  ∧ handlers_of get_admin_main_keyboard
    = [Some C_list_chats; Some C_create_broadcast]
  ∧ handlers_of get_language_keyboard
    = [Some C_process_language_selection; Some C_process_language_selection]
  ∧ handlers_of (get_events_keyboard lang)
    = [Some C_create_event_start; Some C_show_available_events; None;
       Some C_show_past_events]
  ∧ handlers_of (get_event_actions_keyboard event_id is_participant
                   is_creator lang)
    = [Some (if is_creator then C_cancel_event_callback
             else if is_participant then C_leave_event_callback
             else C_join_event_callback);
       Some C_return_to_events_menu]
  ∧ handlers_of (get_broadcast_confirmation_keyboard lang)
    = [None; None; None; None]
  ∧ handlers_of get_broadcast_target_keyboard
    = [Some C_process_broadcast; Some C_process_broadcast;
       Some C_process_broadcast; Some C_process_broadcast]
  ∧ handlers_of get_broadcast_confirm_keyboard
    = [Some C_process_broadcast; Some C_process_broadcast]
  ∧ handlers_of get_event_type_keyboard
    = [Some C_process_event_type; Some C_process_event_type;
       Some C_process_event_type; Some C_process_event_type]
  ∧ handlers_of get_difficulty_keyboard
    = [Some C_process_difficulty; Some C_process_difficulty;
       Some C_process_difficulty].
Proof.
  unfold handlers_of, callbacks_of, get_admin_chat_keyboard,
    get_events_keyboard, get_event_actions_keyboard,
    get_broadcast_confirmation_keyboard.
  repeat split; try (vm_compute; reflexivity).
  - destruct (pretty user_id); vm_compute; reflexivity.
  - case_bool_decide; vm_compute; reflexivity.
  - destruct is_creator, is_participant, (pretty event_id);
      vm_compute; reflexivity.
Qed.

End Buttons.

Section CatchAll.

Context (env : Env).

(** X26: the buttons of the main keyboard are answered by the
    catch-all.  In a session that does not wait for a registration
    answer, the text of either button of [get_main_keyboard], in either
    language, is dispatched to [handle_user_message], which finds one of
    its keywords in it and answers with the events welcome text; beyond
    the row [get_or_create_user] may create, nothing changes. *)
Theorem main_keyboard_answered_by_catch_all
    (lang : string) (sender : TelegramUser) (st : option State) (w : World) :
  registration_pending st = false →
  Forall (λ b,
            let m := text_message sender (key_text b) in
            dispatch_message env st m = Some R_handle_user_message
            ∧ handle_user_message_head env m w
              = Return true
                  (sent (tg_id sender) events_welcome
                     (world_of (get_or_create_user sender w))))
         (mjoin (get_main_keyboard lang)).
Proof.
  unfold registration_pending. intros Hst.
  apply orb_false_elim in Hst as [Hst Habout].
  apply orb_false_elim in Hst as [Hst Hcountry].
  apply orb_false_elim in Hst as [Hname Hphone].
  assert (∀ t,
    (∀ name, Command env name (text_message sender t) = false) →
    text_help_filter (text_message sender t) = false →
    F_text (text_message sender t) = true →
    existsb (λ keyword, contains (lower (code_points t))
                                 (code_points keyword))
            events_keywords = true →
    dispatch_message env st (text_message sender t)
    = Some R_handle_user_message
    ∧ handle_user_message_head env (text_message sender t) w
      = Return true
          (sent (tg_id sender) events_welcome
             (world_of (get_or_create_user sender w)))) as Hbutton.
  { intros t Hcmd Hhelp Htext Hkey. split.
    - rewrite dispatch_message_route. unfold route_message, CommandStart.
      rewrite !Hcmd, Hhelp, Hname, Hphone, Hcountry, Habout, Htext. done.
    - unfold handle_user_message_head, try_except, get_or_create_user,
        answer, send_message, modify, sent, mbind, M_bind, mret, M_ret.
      unfold text_message. cbn [text from_user].
      destruct (users (db w) !! tg_id sender); rewrite Hkey; reflexivity. }
  unfold get_main_keyboard.
  case_bool_decide; simpl; repeat apply Forall_cons_2; try apply Forall_nil_2;
    apply Hbutton; try (vm_compute; reflexivity);
    intros name; vm_compute; reflexivity.
Qed.

(** X27: what an unregistered user writes stays with the bot.  For a
    sender other than the administrator whose registration is not
    complete, [handle_user_message] returns before its forwarding
    branch, whatever the message: it sends one text, to the sender, and
    beyond the row [get_or_create_user] may create nothing changes; no
    message goes to the administrator. *)
Theorem unregistered_text_not_forwarded
    (m : Message) (w w1 : World) (user : User) :
  get_or_create_user (from_user m) w = Return user w1 →
  registration_complete user = false →
  tg_id (from_user m) ≠ ADMIN_ID env →
  ∃ reply,
    handle_user_message_head env m w
    = Return true (sent (tg_id (from_user m)) reply w1).
Proof.
  intros Hu Hreg Hadmin.
  unfold handle_user_message_head, mbind at 1, M_bind at 1. rewrite Hu.
  unfold try_except, answer, send_message, modify, raise, sent,
    mbind, M_bind, mret, M_ret.
  rewrite Hreg, (bool_decide_eq_true_2 _ Hadmin). simpl.
  destruct (text m) as [t|]; [|by eexists].
  destruct (orb _ _); by eexists.
Qed.

End CatchAll.

Lemma main_keyboard_answered_by_catch_all_witness :
  Forall (λ b,
            let m := text_message alice (key_text b) in
            dispatch_message demo_env None m = Some R_handle_user_message
            ∧ handle_user_message_head demo_env m demo_world
              = Return true
                  (sent 100 events_welcome
                     (world_of (get_or_create_user alice demo_world))))
         (mjoin (get_main_keyboard "ru")).
Proof.
  apply (main_keyboard_answered_by_catch_all demo_env "ru" alice None
           demo_world).
  reflexivity.
Defined.

Lemma unregistered_text_not_forwarded_witness :
  let w := club_world (paid_event [5]) in
  ∃ reply,
    handle_user_message_head demo_env (text_message bob "hello") w
    = Return true (sent 200 reply (with_user bob_row w)).
Proof.
  intros w.
  apply (unregistered_text_not_forwarded demo_env (text_message bob "hello")
           w (with_user bob_row w) bob_row).
  - vm_compute. reflexivity.
  - reflexivity.
  - vm_compute. discriminate.
Defined.
